(** * takeoff: deploy_to_databricks.py

    A shallow embedding of [pyspark_streaming_deployment/deploy_to_databricks.py]
    and the properties of its four stages: release classifier ([main]),
    job-config builder ([__construct_job_config]), job remover
    ([__remove_job], [__application_job_id], [__kill_it_with_fire]) and job
    submitter ([__submit_job]).

    Conventions.
    - A Python [str] is a [string]; a character is a code point below 256.
      On these code points [\d] is [0-9], [.] is everything but line feed,
      and [str.lower] moves [A-Z] and the Latin-1 capitals by 32.
    - A Python [int] is a [Z]; [None] where a value may be missing is
      [option]'s [None].
    - A [dict] is an association list read by first occurrence of the key;
      [d[k] = v] replaces in place or appends.
    - Python exceptions are the type [exn]; a function that can raise returns
      [res]; functions that talk to the outside world run in the monad [M]
      over [World]. *)

From Stdlib Require Import List String Ascii ZArith Bool Arith Lia.
Import ListNotations.
Local Open Scope list_scope.
Local Open Scope string_scope.

(** ** Strings *)

Module Str.

Definition LF : ascii := "010"%char.

Definition is_digit (c : ascii) : bool :=
  let n := nat_of_ascii c in ((48 <=? n) && (n <=? 57))%nat.

(** [str.lower] on one code point below 256. *)
Definition lower_char (c : ascii) : ascii :=
  let n := nat_of_ascii c in
  if (((65 <=? n) && (n <=? 90))
      || ((192 <=? n) && (n <=? 222) && negb (n =? 215)))%nat
  then ascii_of_nat (n + 32) else c.

Fixpoint lower (s : string) : string :=
  match s with
  | EmptyString => EmptyString
  | String c s' => String (lower_char c) (lower s')
  end.

Fixpoint forallb (p : ascii -> bool) (s : string) : bool :=
  match s with
  | EmptyString => true
  | String c s' => p c && forallb p s'
  end.

Fixpoint chars (s : string) : list ascii :=
  match s with
  | EmptyString => []
  | String c s' => c :: chars s'
  end.

End Str.

(** ** Exceptions and results *)

(** The exceptions the script can raise. [OutsideModel] is not a Python
    exception: it marks a regular expression or a format string whose syntax
    this development does not interpret (for a pattern it also stands for
    [re.error]). *)
Inductive exn : Type :=
| KeyError (key : string)
| TypeError
| AttributeError
| IndexError
| ValueError
| FileNotFoundError (fn : string)
| InvalidGitRepositoryError
| OutsideModel.

Inductive res (A : Type) : Type :=
| Ret (a : A)
| Raise (e : exn).
Arguments Ret {A} a.
Arguments Raise {A} e.

Definition res_bind {A B} (r : res A) (f : A -> res B) : res B :=
  match r with
  | Ret a => f a
  | Raise e => Raise e
  end.

Declare Scope res_scope.
Delimit Scope res_scope with res.
Notation "'let?' x := r 'in' k" := (res_bind r (fun x => k))
  (at level 10, x name, r at level 100, k at level 200) : res_scope.
Local Open Scope res_scope.

(** ** The fragment of Python's [re] the job matcher needs *)

Module Re.

(** One-character classes: a literal, [.] and [\d]. *)
Inductive cls : Type :=
| Lit (c : ascii)
| AnyChar
| Digit.

Definition cls_matches (a : cls) (c : ascii) : bool :=
  match a with
  | Lit c' => Ascii.eqb c' c
  | AnyChar => negb (Ascii.eqb c Str.LF)
  | Digit => Str.is_digit c
  end.

(** Patterns. Repetition is greedy and applies to one-character classes only:
    [a*] is [Many a], [a+] is [Seq (Atom a) (Many a)], [a?] is
    [Alt (Atom a) Eps]. [Group n r] is the n-th capturing group. *)
Inductive regex : Type :=
| Eps
| Atom (a : cls)
| Many (a : cls)
| Seq (r1 r2 : regex)
| Alt (r1 r2 : regex)
| Group (n : nat) (r : regex)
| Bol
| Eol.

(** *** Parsing a pattern *)

(** The characters [re] gives a meaning to. *)
Definition special (c : ascii) : bool :=
  existsb (Ascii.eqb c) (Str.chars ".^$*+?{}[]\|()").

Definition seq_of (items : list regex) : regex := fold_right Seq Eps items.

Fixpoint alt_of (alts : list regex) (last : regex) : regex :=
  match alts with
  | [] => last
  | r :: alts' => Alt r (alt_of alts' last)
  end.

(** An open group (or the top level, numbered 0): the alternatives closed by
    [|] so far and the items of the current alternative, both newest first. *)
Record frame : Type := Frame {
  f_group : nat;
  f_alts : list regex;
  f_seq : list regex
}.

Definition frame_regex (f : frame) : regex :=
  alt_of (rev f.(f_alts)) (seq_of (rev f.(f_seq))).

Definition push_item (r : regex) (f : frame) : frame :=
  Frame f.(f_group) f.(f_alts) (r :: f.(f_seq)).

Record pstate : Type := PState {
  p_cur : frame;
  p_stack : list frame;
  p_next : nat;      (* number of the next group to open *)
  p_esc : bool       (* the previous character was a backslash *)
}.

Definition p_init : pstate := PState (Frame 0 [] []) [] 1 false.

Definition emit (r : regex) (st : pstate) : option pstate :=
  Some (PState (push_item r st.(p_cur)) st.(p_stack) st.(p_next) false).

(** A repetition operator applies to the item before it, which must be a
    single unrepeated character class. *)
Definition quantify (q : cls -> regex) (st : pstate) : option pstate :=
  match st.(p_cur).(f_seq) with
  | Atom a :: items =>
      Some (PState (Frame st.(p_cur).(f_group) st.(p_cur).(f_alts) (q a :: items))
                   st.(p_stack) st.(p_next) false)
  | _ => None
  end.

Definition pstep (st : pstate) (c : ascii) : option pstate :=
  if st.(p_esc) then
    if Ascii.eqb c "d" then emit (Atom Digit) st
    else if special c then emit (Atom (Lit c)) st
    else None
  else if Ascii.eqb c "\" then
    Some (PState st.(p_cur) st.(p_stack) st.(p_next) true)
  else if Ascii.eqb c "(" then
    Some (PState (Frame st.(p_next) [] []) (st.(p_cur) :: st.(p_stack))
                 (S st.(p_next)) false)
  else if Ascii.eqb c ")" then
    match st.(p_stack) with
    | outer :: stack =>
        Some (PState (push_item (Group st.(p_cur).(f_group) (frame_regex st.(p_cur))) outer)
                     stack st.(p_next) false)
    | [] => None
    end
  else if Ascii.eqb c "|" then
    Some (PState (Frame st.(p_cur).(f_group)
                        (seq_of (rev st.(p_cur).(f_seq)) :: st.(p_cur).(f_alts)) [])
                 st.(p_stack) st.(p_next) false)
  else if Ascii.eqb c "*" then quantify Many st
  else if Ascii.eqb c "+" then quantify (fun a => Seq (Atom a) (Many a)) st
  else if Ascii.eqb c "?" then quantify (fun a => Alt (Atom a) Eps) st
  else if Ascii.eqb c "." then emit (Atom AnyChar) st
  else if Ascii.eqb c "^" then emit Bol st
  else if Ascii.eqb c "$" then emit Eol st
  else if special c then None
  else emit (Atom (Lit c)) st.

Fixpoint psteps (s : string) (st : pstate) : option pstate :=
  match s with
  | EmptyString => Some st
  | String c s' =>
      match pstep st c with
      | Some st' => psteps s' st'
      | None => None
      end
  end.

(** [re.compile(pattern)] with no flags. [None]: [re.error], or syntax
    outside the fragment (character sets, counted, lazy and possessive
    repetition, repetition of a group, [(?...)] extensions, escapes other
    than [\d] and an escaped special character). *)
Definition compile (pattern : string) : option regex :=
  match psteps pattern p_init with
  | Some st =>
      match st.(p_stack), st.(p_esc) with
      | [], false => Some (frame_regex st.(p_cur))
      | _, _ => None
      end
  | None => None
  end.

(** *** Matching *)

(** Captured groups, by number; the newest binding of a number is in front. *)
Definition groups : Type := list (nat * string).

Fixpoint group (n : nat) (g : groups) : option string :=
  match g with
  | [] => None
  | (m, s) :: g' => if Nat.eqb n m then Some s else group n g'
  end.

Definition at_eol (s : string) : bool :=
  match s with
  | EmptyString => true
  | String c EmptyString => Ascii.eqb c Str.LF
  | _ => false
  end.

(** [a*] followed by [k]: the longest run of [a] first, then shorter ones. *)
Fixpoint many (a : cls) (g : groups) (k : nat -> string -> groups -> option groups)
         (i : nat) (s : string) {struct s} : option groups :=
  match s with
  | String c s' =>
      if cls_matches a c then
        match many a g k (S i) s' with
        | Some x => Some x
        | None => k i s g
        end
      else k i s g
  | EmptyString => k i s g
  end.

(** The backtracking matcher: [rmatch r i s g k] matches [r] at offset [i] of
    the subject, where [s] is what is left of the subject, and hands the
    offset, the rest and the groups to [k]; when [k] fails the next way to
    match [r] is tried, in Python's order (left alternative first, longest
    repetition first). *)
Fixpoint rmatch (r : regex) (i : nat) (s : string) (g : groups)
         (k : nat -> string -> groups -> option groups) {struct r} : option groups :=
  match r with
  | Eps => k i s g
  | Atom a =>
      match s with
      | String c s' => if cls_matches a c then k (S i) s' g else None
      | EmptyString => None
      end
  | Many a => many a g k i s
  | Seq r1 r2 => rmatch r1 i s g (fun i' s' g' => rmatch r2 i' s' g' k)
  | Alt r1 r2 =>
      match rmatch r1 i s g k with
      | Some x => Some x
      | None => rmatch r2 i s g k
      end
  | Group n r1 =>
      rmatch r1 i s g (fun i' s' g' => k i' s' ((n, substring 0 (i' - i) s) :: g'))
  | Bol => if Nat.eqb i 0 then k i s g else None
  | Eol => if at_eol s then k i s g else None
  end.

Definition accept : nat -> string -> groups -> option groups :=
  fun _ _ g => Some g.

(** [regex.search(subject)]: the first offset at which the pattern matches. *)
Fixpoint search_from (r : regex) (i : nat) (s : string) : option groups :=
  match rmatch r i s [] accept with
  | Some g => Some g
  | None =>
      match s with
      | EmptyString => None
      | String _ s' => search_from r (S i) s'
      end
  end.

Definition search (r : regex) (subject : string) : option groups :=
  search_from r 0 subject.

End Re.

(** ** Job records and the job matcher *)

(** [@dataclass class JobConfig]. *)
Record JobConfig : Type := mkJobConfig {
  name : string;
  job_id : Z
}.

Definition opt_string_eqb (a : option string) (b : string) : bool :=
  match a with
  | Some s => String.eqb s b
  | None => false
  end.

(** The pattern text of [rf'^({application_name})-(SNAPSHOT|\d+\.\d+\.\d+)$']. *)
Definition job_pattern (application_name : string) : string :=
  "^(" ++ application_name ++ ")-(SNAPSHOT|\d+\.\d+\.\d+)$".

(** The inner function [has_match] of [__application_job_id], with the
    compiled [regex] of the enclosing scope as a parameter. *)
Definition has_match (regex : Re.regex) (application_name job_name : string) : bool :=
  match Re.search regex job_name with
  | Some g => opt_string_eqb (Re.group 1 g) application_name
  | None => false
  end.

Definition __application_job_id (application_name : string) (jobs : list JobConfig)
  : res (option Z) :=
  match Re.compile (job_pattern application_name) with
  | None => Raise OutsideModel
  | Some regex =>
      Ret (option_map job_id
             (find (fun j => has_match regex application_name j.(name)) jobs))
  end.

(** ** Python objects read from JSON *)

(** What [json.load] returns. A float is kept as its literal: the script
    never looks inside one. *)
#[local] Unset Elimination Schemes.
Inductive json : Type :=
| JNull
| JBool (b : bool)
| JInt (z : Z)
| JFloat (literal : string)
| JStr (s : string)
| JList (l : list json)
| JDict (d : list (string * json)).
#[local] Set Elimination Schemes.

Module Dict.

Definition t : Type := list (string * json).

Fixpoint get (k : string) (d : t) : option json :=
  match d with
  | [] => None
  | (k', v) :: d' => if String.eqb k k' then Some v else get k d'
  end.

(** [d[k] = v]: the value of an existing key is replaced where it stands, a
    new key goes to the end. *)
Fixpoint set (k : string) (v : json) (d : t) : t :=
  match d with
  | [] => [(k, v)]
  | (k', v') :: d' =>
      if String.eqb k k' then (k', v) :: d' else (k', v') :: set k v d'
  end.

(** [k in d.keys()]. *)
Definition has (k : string) (d : t) : bool :=
  match get k d with
  | Some _ => true
  | None => false
  end.

End Dict.

(** [o[k]] for a string key [k]. *)
Definition getitem (o : json) (k : string) : res json :=
  match o with
  | JDict d =>
      match Dict.get k d with
      | Some v => Ret v
      | None => Raise (KeyError k)
      end
  | _ => Raise TypeError
  end.

(** [o[k] = v] for a string key [k]; returns the object after the store. *)
Definition setitem (o : json) (k : string) (v : json) : res json :=
  match o with
  | JDict d => Ret (JDict (Dict.set k v d))
  | _ => Raise TypeError
  end.

(** [o.append(v)]. *)
Definition append (o : json) (v : json) : res json :=
  match o with
  | JList l => Ret (JList (l ++ [v])%list)
  | _ => Raise AttributeError
  end.

(** [k in o.keys()]. *)
Definition in_keys (k : string) (o : json) : res bool :=
  match o with
  | JDict d => Ret (Dict.has k d)
  | _ => Raise AttributeError
  end.

(** ** [str.format] with the single keyword argument [dtap] *)

Module Format.

Inductive state : Type :=
| Text                      (* outside a replacement field *)
| Open                      (* just after an opening brace *)
| Field (acc : list ascii)  (* in a field name, newest character first *)
| Close.                    (* just after a closing brace in text *)

Definition is_open (c : ascii) : bool := Ascii.eqb c "{".
Definition is_close (c : ascii) : bool := Ascii.eqb c "}".

(** Characters that start a conversion, a format spec, an attribute or an
    index, or nest a field: not interpreted here. *)
Definition compound (c : ascii) : bool :=
  existsb (Ascii.eqb c) (Str.chars "{!:.[").

(** The value of the field called [field_name] when the only argument is the
    keyword [dtap]. *)
Definition lookup (field_name : list ascii) (dtap : string) : res string :=
  let n := string_of_list_ascii field_name in
  if String.eqb n "dtap" then Ret dtap
  else if forallb Str.is_digit field_name then Raise IndexError
  else match field_name with
       | c :: _ => if Str.is_digit c then Raise OutsideModel else Raise (KeyError n)
       | [] => Raise IndexError
       end.

Fixpoint run (st : state) (s : string) (dtap : string) : res string :=
  match s with
  | EmptyString =>
      match st with
      | Text => Ret ""
      | _ => Raise ValueError
      end
  | String c s' =>
      match st with
      | Text =>
          if is_open c then run Open s' dtap
          else if is_close c then run Close s' dtap
          else let? r := run Text s' dtap in Ret (String c r)
      | Open =>
          if is_open c then let? r := run Text s' dtap in Ret (String c r)
          else if is_close c then Raise IndexError
          else if compound c then Raise OutsideModel
          else run (Field [c]) s' dtap
      | Field acc =>
          if is_close c then
            let? v := lookup (rev acc) dtap in
            let? r := run Text s' dtap in Ret (v ++ r)
          else if compound c then Raise OutsideModel
          else run (Field (c :: acc)) s' dtap
      | Close =>
          if is_close c then let? r := run Text s' dtap in Ret (String c r)
          else Raise ValueError
      end
  end.

(** [s.format(dtap=dtap)]. *)
Definition format (s dtap : string) : res string := run Text s dtap.

Definition brace_free (s : string) : bool :=
  Str.forallb (fun c => negb (is_open c || is_close c)) s.

End Format.

(** [o.format(dtap=dtap)] on an object: only [str] has the method. *)
Definition format_method (o : json) (dtap : string) : res json :=
  match o with
  | JStr s => let? r := Format.format s dtap in Ret (JStr r)
  | _ => Raise AttributeError
  end.

(** ** The world outside the script *)

(** What [git.Repo] shows of the checkout: the tags with the commit each
    points to, in the order of [repo.tags], and the commit of [HEAD]. *)
Record Repo : Type := mkRepo {
  tags : list (string * string);
  head_commit : string
}.

(** A job as the job service lists it: [{job_id, settings: {name}}]. *)
Record RemoteJob : Type := mkRemoteJob {
  rj_job_id : Z;
  rj_settings_name : string
}.

(** The calls made to the job service ([JobsApi], [RunsApi]), with their
    arguments. *)
Inductive Call : Type :=
| ListJobs
| DeleteJob (job_id : Z)
| CreateJob (job_config : json)
| RunNow (job_id : Z) (jar_params notebook_params python_params spark_submit_params : option json)
| ListRuns (job_id : Z) (active_only : bool) (completed_only : option bool) (offset limit : option Z)
| CancelRun (run_id : Z).

Inductive Output : Type :=
| Print (line : string)
| Pprint (o : json).

Record World : Type := mkWorld {
  w_repo : option Repo;                   (* [None]: not inside a checkout *)
  w_environ : list (string * string);     (* [os.environ] *)
  w_files : list (string * json);         (* JSON files, by path, parsed *)
  w_jobs : list RemoteJob;                (* the jobs of the workspace *)
  w_next_job_id : Z;                      (* the id the service gives the next job *)
  w_runs : Z -> option (list Z);          (* first page of active runs of a job:
                                             [None] when the answer has no [runs] key *)
  w_stdout : list Output;                 (* oldest first *)
  w_calls : list Call                     (* oldest first *)
}.

(** State and exceptions: the world after a raise is the world at the raise. *)
Definition M (A : Type) : Type := World -> res A * World.

Definition ret {A} (a : A) : M A := fun w => (Ret a, w).

Definition bind {A B} (m : M A) (f : A -> M B) : M B :=
  fun w =>
    match m w with
    | (Ret a, w') => f a w'
    | (Raise e, w') => (Raise e, w')
    end.

Definition lift {A} (r : res A) : M A := fun w => (r, w).

Declare Scope monad_scope.
Delimit Scope monad_scope with monad.
Notation "x <- m ;; k" := (bind m (fun x => k))
  (at level 61, m at next level, right associativity) : monad_scope.
Notation "m ;; k" := (bind m (fun _ => k))
  (at level 61, right associativity) : monad_scope.
Local Open Scope monad_scope.

Fixpoint for_each {A} (f : A -> M unit) (l : list A) : M unit :=
  match l with
  | [] => ret tt
  | a :: l' => f a ;; for_each f l'
  end.

Fixpoint assoc (k : string) (l : list (string * string)) : option string :=
  match l with
  | [] => None
  | (k', v) :: l' => if String.eqb k k' then Some v else assoc k l'
  end.

Definition with_stdout (f : list Output -> list Output) (w : World) : World :=
  mkWorld w.(w_repo) w.(w_environ) w.(w_files) w.(w_jobs) w.(w_next_job_id)
          w.(w_runs) (f w.(w_stdout)) w.(w_calls).

Definition with_call (c : Call) (w : World) : World :=
  mkWorld w.(w_repo) w.(w_environ) w.(w_files) w.(w_jobs) w.(w_next_job_id)
          w.(w_runs) w.(w_stdout) (w.(w_calls) ++ [c])%list.

Definition with_jobs (jobs : list RemoteJob) (next : Z) (w : World) : World :=
  mkWorld w.(w_repo) w.(w_environ) w.(w_files) jobs next
          w.(w_runs) w.(w_stdout) w.(w_calls).

(** [os.environ[k]]. *)
Definition environ (k : string) : M string :=
  fun w =>
    match assoc k w.(w_environ) with
    | Some v => (Ret v, w)
    | None => (Raise (KeyError k), w)
    end.

Definition print (line : string) : M unit :=
  fun w => (Ret tt, with_stdout (fun out => out ++ [Print line])%list w).

Definition pprint (o : json) : M unit :=
  fun w => (Ret tt, with_stdout (fun out => out ++ [Pprint o])%list w).

(** *** The job service

    The service is not part of the script. It is modelled as far as the
    script can observe it: every call succeeds and is recorded; [list_jobs]
    shows the jobs of the workspace; [delete_job] removes the jobs with the
    given id; [create_job] stores a job under a new id, named by the [name]
    field of the settings; [list_runs] answers with the first page of run
    ids; [cancel_run] and [run_now] are only recorded. *)

Module Api.

Record ApiClient : Type := mkApiClient {
  host : string;
  token : string
}.

Definition settings_name (job_config : json) : string :=
  match job_config with
  | JDict d =>
      match Dict.get "name" d with
      | Some (JStr n) => n
      | _ => "Untitled"
      end
  | _ => "Untitled"
  end.

Definition list_jobs (client : ApiClient) : M (list RemoteJob) :=
  fun w => (Ret w.(w_jobs), with_call ListJobs w).

Definition delete_job (client : ApiClient) (job_id : Z) : M unit :=
  fun w =>
    (Ret tt,
     with_jobs (filter (fun j => negb (Z.eqb j.(rj_job_id) job_id)) w.(w_jobs))
               w.(w_next_job_id) (with_call (DeleteJob job_id) w)).

(** Returns the [job_id] of the answer. *)
Definition create_job (client : ApiClient) (job_config : json) : M Z :=
  fun w =>
    let id := w.(w_next_job_id) in
    (Ret id,
     with_jobs (w.(w_jobs) ++ [mkRemoteJob id (settings_name job_config)])%list
               (id + 1)%Z (with_call (CreateJob job_config) w)).

Definition run_now (client : ApiClient) (job_id : Z)
           (jar_params notebook_params python_params spark_submit_params : option json)
  : M unit :=
  fun w =>
    (Ret tt,
     with_call (RunNow job_id jar_params notebook_params python_params spark_submit_params) w).

(** Returns the run ids under the [runs] key of the answer, [None] when the
    answer has no such key. *)
Definition list_runs (client : ApiClient) (job_id : Z) (active_only : bool)
           (completed_only : option bool) (offset limit : option Z)
  : M (option (list Z)) :=
  fun w =>
    (Ret (w.(w_runs) job_id),
     with_call (ListRuns job_id active_only completed_only offset limit) w).

Definition cancel_run (client : ApiClient) (run_id : Z) : M unit :=
  fun w => (Ret tt, with_call (CancelRun run_id) w).

End Api.
Import Api.

(** ** The script *)

Definition JOB_CFG : string := "/root/job_config.json".
Definition ROOT_LIBRARY_FOLDER : string := "dbfs:/mnt/sdhdev/libraries".

(** [with open(fn) as f: config = json.load(f)]. *)
Definition __read_job_config (fn : string) : M json :=
  fun w =>
    match Dict.get fn w.(w_files) with
    | Some config => (Ret config, w)
    | None => (Raise (FileNotFoundError fn), w)
    end.

(** The stores go through references into the loaded object; here each
    nested object is read, updated and stored back into its parent. *)
Definition construct (job_config : json) (name dtap egg python_file : string) : res json :=
  let? new_cluster := getitem job_config "new_cluster" in
  let? spark_conf := getitem new_cluster "spark_conf" in
  let? warehouse_dir := getitem spark_conf "spark.sql.warehouse.dir" in
  let? formatted := format_method warehouse_dir (Str.lower dtap) in
  let? spark_conf := setitem spark_conf "spark.sql.warehouse.dir" formatted in
  let? new_cluster := setitem new_cluster "spark_conf" spark_conf in
  let? job_config := setitem job_config "new_cluster" new_cluster in
  let? job_config := setitem job_config "name" (JStr name) in
  let? spark_python_task := getitem job_config "spark_python_task" in
  let? spark_python_task := setitem spark_python_task "python_file" (JStr python_file) in
  let? job_config := setitem job_config "spark_python_task" spark_python_task in
  let? libraries := getitem job_config "libraries" in
  let? libraries := append libraries (JDict [("egg", JStr egg)]) in
  let? job_config := setitem job_config "libraries" libraries in
  Ret job_config.

Definition __construct_job_config (fn name dtap egg python_file : string) : M json :=
  job_config <- __read_job_config fn ;;
  lift (construct job_config name dtap egg python_file).

Definition __kill_it_with_fire (runs_api : ApiClient) (job_id : Z) : M unit :=
  runs <- list_runs runs_api job_id true None None None ;;
  match runs with
  | Some active_run_ids => for_each (cancel_run runs_api) active_run_ids
  | None => ret tt
  end.

(** [if job_id:] on an [int] or [None]. *)
Definition truthy (job_id : option Z) : bool :=
  match job_id with
  | Some z => negb (Z.eqb z 0)
  | None => false
  end.

Definition __remove_job (client : ApiClient) (application_name : string)
           (is_streaming : bool) : M unit :=
  jobs <- list_jobs client ;;
  let job_configs :=
    map (fun j => mkJobConfig j.(rj_settings_name) j.(rj_job_id)) jobs in
  job_id <- lift (__application_job_id application_name job_configs) ;;
  match job_id with
  | Some id =>
      if truthy job_id then
        (if is_streaming then __kill_it_with_fire client id else ret tt) ;;
        delete_job client id
      else ret tt
  | None => ret tt
  end.

Definition __submit_job (client : ApiClient) (job_config : json)
           (is_streaming : bool) : M unit :=
  job_resp <- create_job client job_config ;;
  if is_streaming then run_now client job_resp None None None None
  else ret tt.

Definition deploy_application (version dtap : string) : M unit :=
  application_name <- environ "BUILD_DEFINITIONNAME" ;;
  job_config <- __construct_job_config
    JOB_CFG
    (application_name ++ "-" ++ version)
    dtap
    (ROOT_LIBRARY_FOLDER ++ "/" ++ application_name ++ "/" ++ application_name
       ++ "-" ++ version ++ ".egg")
    (ROOT_LIBRARY_FOLDER ++ "/" ++ application_name ++ "/" ++ application_name
       ++ "-main-" ++ version ++ ".py") ;;
  print "Creating databricks client" ;;
  databricks_token <- environ ("AZURE_DATABRICKS_TOKEN_" ++ dtap) ;;
  databricks_host <- environ ("AZURE_DATABRICKS_HOST_" ++ dtap) ;;
  let client := mkApiClient databricks_host databricks_token in
  is_streaming <- lift (in_keys "schedule" job_config) ;;
  print "Removing old job" ;;
  __remove_job client application_name is_streaming ;;
  print "Submitting new job with configuration:" ;;
  pprint job_config ;;
  __submit_job client job_config is_streaming.

Definition DQUOTE : string := String "034"%char "".
Definition NEWLINE : string := String Str.LF "".

(** The text of the f-string printed when nothing is deployed. *)
Definition not_deploying (branch : string) : string :=
  "Not a release (tag not available)," ++ NEWLINE
  ++ "            nor master branch (branch = " ++ DQUOTE ++ branch ++ DQUOTE
  ++ ". Not deploying".

Definition main : M unit :=
  fun w =>
    match w.(w_repo) with
    | None => (Raise InvalidGitRepositoryError, w)
    | Some repo =>
        (let tag := find (fun t => String.eqb (snd t) repo.(head_commit)) repo.(tags) in
         branch <- environ "BUILD_SOURCEBRANCHNAME" ;;
         match tag with
         | Some t => deploy_application (fst t) "PRD"
         | None =>
             if String.eqb branch "master" then deploy_application "SNAPSHOT" "DEV"
             else print (not_deploying branch)
         end) w
    end.

(** ** Vocabulary of the properties *)

(** *** What a pattern denotes *)

Module ReSem.
Import Re.

(** [lang r i s i' s']: [r] can match from offset [i], where [s] is left of
    the subject, up to offset [i'], where [s'] is left. *)
Fixpoint lang (r : regex) (i : nat) (s : string) (i' : nat) (s' : string) : Prop :=
  match r with
  | Eps => i' = i /\ s' = s
  | Atom a => exists c, s = String c s' /\ cls_matches a c = true /\ i' = S i
  | Many a =>
      exists p, s = p ++ s' /\ Str.forallb (cls_matches a) p = true
                /\ i' = i + String.length p
  | Seq r1 r2 => exists im sm, lang r1 i s im sm /\ lang r2 im sm i' s'
  | Alt r1 r2 => lang r1 i s i' s' \/ lang r2 i s i' s'
  | Group _ r1 => lang r1 i s i' s'
  | Bol => i = 0 /\ i' = i /\ s' = s
  | Eol => at_eol s = true /\ i' = i /\ s' = s
  end.

Fixpoint has_group (n : nat) (r : regex) : bool :=
  match r with
  | Seq r1 r2 | Alt r1 r2 => has_group n r1 || has_group n r2
  | Group m r1 => Nat.eqb n m || has_group n r1
  | _ => false
  end.

(** The class a character of an application name compiles to, when the
    character is [.] or has no meaning to [re]. *)
Definition cls_of (c : ascii) : cls :=
  if Ascii.eqb c "." then AnyChar else Lit c.

(** Matching a run of single classes consumes one character for each. *)
Fixpoint atoms_prefix (cs : list cls) (s : string) : option string :=
  match cs, s with
  | [], _ => Some s
  | a :: cs', String c s' => if cls_matches a c then atoms_prefix cs' s' else None
  | _ :: _, EmptyString => None
  end.

Definition plus (a : cls) : regex := Seq (Atom a) (Many a).

Definition literal (s : string) : regex :=
  seq_of (map (fun c => Atom (Lit c)) (Str.chars s)).

(** [(SNAPSHOT|\d+\.\d+\.\d+)] as the second group. *)
Definition version_group : regex :=
  Group 2
    (Alt (literal "SNAPSHOT")
         (seq_of [plus Digit; Atom (Lit "."); plus Digit; Atom (Lit "."); plus Digit])).

(** What follows the first group in the job pattern. *)
Definition job_tail : regex :=
  Seq (Atom (Lit "-")) (Seq version_group (Seq Eol Eps)).

(** The compiled job pattern for a name that compiles to the classes [cs]. *)
Definition job_regex (cs : list cls) : regex :=
  Seq Bol (Seq (Group 1 (seq_of (map Atom cs))) job_tail).

End ReSem.

(** *** Application names, versions and job names *)

(** No character of the name has a meaning to [re]. *)
Definition plain (application_name : string) : bool :=
  Str.forallb (fun c => negb (Re.special c)) application_name.

(** No character of the name other than [.] has a meaning to [re]. *)
Definition dotted (application_name : string) : bool :=
  Str.forallb (fun c => negb (Re.special c) || Ascii.eqb c ".") application_name.

Definition digits (s : string) : Prop :=
  s <> "" /\ Str.forallb Str.is_digit s = true.

(** [SNAPSHOT] or [\d+\.\d+\.\d+]. *)
Inductive version : string -> Prop :=
| version_snapshot : version "SNAPSHOT"
| version_numbers a b c :
    digits a -> digits b -> digits c -> version (a ++ "." ++ b ++ "." ++ c).

(** [job_name] is the application name, a dash and a version, possibly
    followed by one line feed (which [$] lets through). *)
Definition names_application (application_name job_name : string) : Prop :=
  exists V nl,
    version V /\ (nl = "" \/ nl = NEWLINE)
    /\ job_name = application_name ++ "-" ++ V ++ nl.

(** [j] is the first job of [jobs] that [names_application]. *)
Definition first_named (application_name : string) (jobs : list JobConfig)
           (j : JobConfig) : Prop :=
  exists before after,
    jobs = (before ++ j :: after)%list
    /\ names_application application_name j.(name)
    /\ Forall (fun j' => ~ names_application application_name j'.(name)) before.

(** The items an application name compiles to. *)
Definition name_items (A : string) : list Re.regex :=
  map (fun c => Re.Atom (ReSem.cls_of c)) (Str.chars A).

Fixpoint dashes (s : string) : nat :=
  match s with
  | EmptyString => 0
  | String c s' => (if Ascii.eqb c "-" then 1 else 0) + dashes s'
  end.

Definition two_versions : list JobConfig :=
  [mkJobConfig "app-2.0.0" 1; mkJobConfig "app-1.0.0" 2].

Definition dotted_jobs : list JobConfig :=
  [mkJobConfig "myXapp-1.0.0" 3; mkJobConfig "my.app-SNAPSHOT" 4].

(** The value a path of keys leads to in nested dictionaries. *)
Fixpoint json_path (p : list string) (o : json) : option json :=
  match p with
  | [] => Some o
  | k :: p' =>
      match o with
      | JDict d =>
          match Dict.get k d with
          | Some v => json_path p' v
          | None => None
          end
      | _ => None
      end
  end.

Definition WAREHOUSE_DIR : list string :=
  ["new_cluster"; "spark_conf"; "spark.sql.warehouse.dir"].

Definition written_paths : list (list string) :=
  [WAREHOUSE_DIR; ["name"]; ["spark_python_task"; "python_file"]; ["libraries"]].

Fixpoint is_prefix (p q : list string) : bool :=
  match p, q with
  | [], _ => true
  | k :: p', k' :: q' => String.eqb k k' && is_prefix p' q'
  | _ :: _, [] => false
  end.

(** Neither path leads into the other. *)
Definition apart (p q : list string) : bool :=
  negb (is_prefix p q) && negb (is_prefix q p).

Definition egg_entry (egg : string) : json := JDict [("egg", JStr egg)].

(** The result of the builder, spelled out. *)
Definition built (d nc sc spt : Dict.t) (libs : list json)
           (wd name egg python_file : string) : json :=
  JDict
    (Dict.set "libraries" (JList (libs ++ [egg_entry egg])%list)
       (Dict.set "spark_python_task"
          (JDict (Dict.set "python_file" (JStr python_file) spt))
          (Dict.set "name" (JStr name)
             (Dict.set "new_cluster"
                (JDict (Dict.set "spark_conf"
                          (JDict (Dict.set "spark.sql.warehouse.dir" (JStr wd) sc))
                          nc))
                d)))).

(** The template of the first end-to-end scenario. *)
Definition scenario_template : json :=
  JDict [("new_cluster",
          JDict [("spark_conf",
                  JDict [("spark.sql.warehouse.dir", JStr "/mnt/{dtap}")])]);
         ("spark_python_task", JDict []);
         ("libraries", JList [])].

(** A template whose warehouse directory has no placeholder. *)
Definition fixed_template : json :=
  JDict [("new_cluster",
          JDict [("spark_conf",
                  JDict [("spark.sql.warehouse.dir", JStr "/mnt/warehouse")])]);
         ("spark_python_task", JDict []);
         ("libraries", JList [])].

(** The job records [__remove_job] builds from the listed jobs. *)
Definition job_configs (jobs : list RemoteJob) : list JobConfig :=
  map (fun j => mkJobConfig (rj_settings_name j) (rj_job_id j)) jobs.

(** [job_name] matches the job pattern of the application. *)
Definition name_matches (application_name job_name : string) : bool :=
  match Re.compile (job_pattern application_name) with
  | Some regex =>
      match Re.search regex job_name with
      | Some _ => true
      | None => false
      end
  | None => false
  end.

Definition count_matching (application_name : string) (jobs : list RemoteJob) : nat :=
  List.length (filter (fun j => name_matches application_name (rj_settings_name j)) jobs).

(** The run ids [list_runs] shows for a job. *)
Definition first_page (w : World) (job_id : Z) : list Z :=
  match w_runs w job_id with
  | Some ids => ids
  | None => []
  end.

Definition add_calls (cs : list Call) (w : World) : World :=
  mkWorld (w_repo w) (w_environ w) (w_files w) (w_jobs w) (w_next_job_id w)
          (w_runs w) (w_stdout w) (w_calls w ++ cs)%list.

(** A world to run the script in: [HEAD] is tagged [1.0.1], the job template
    is the one of the first scenario, and job 7 has two active runs. *)
Definition example_world (jobs : list RemoteJob) : World :=
  mkWorld (Some (mkRepo [("1.0.1", "4f2a9c")] "4f2a9c"))
          [("BUILD_SOURCEBRANCHNAME", "master");
           ("BUILD_DEFINITIONNAME", "app");
           ("AZURE_DATABRICKS_TOKEN_PRD", "token-prd");
           ("AZURE_DATABRICKS_HOST_PRD", "https://prd.example");
           ("AZURE_DATABRICKS_TOKEN_DEV", "token-dev");
           ("AZURE_DATABRICKS_HOST_DEV", "https://dev.example")]
          [(JOB_CFG, scenario_template)]
          jobs 100
          (fun job_id => if Z.eqb job_id 7 then Some [41; 42]%Z else None)
          [] [].

Definition example_client : ApiClient := mkApiClient "https://prd.example" "token-prd".

(** The test the matcher applies to a job name: the name matches the job
    pattern of the application and the first group is the application name. *)
Definition accepts (application_name job_name : string) : bool :=
  match Re.compile (job_pattern application_name) with
  | Some regex => has_match regex application_name job_name
  | None => false
  end.

(** Two jobs of the application, the second with id 0. *)
Definition zero_second : list RemoteJob :=
  [mkRemoteJob 5 "app-1.0.0"; mkRemoteJob 0 "app-2.0.0"].

(** Two jobs of the application, the first with id 0. *)
Definition zero_first : list RemoteJob :=
  [mkRemoteJob 0 "app-1.0.0"; mkRemoteJob 5 "app-2.0.0"].

Definition feature_world : World :=
  mkWorld (Some (mkRepo [("1.0.0", "0a1b2c")] "4f2a9c"))
          [("BUILD_SOURCEBRANCHNAME", "feature/x")] [] [] 1 (fun _ => None) [] [].

(** The arguments [deploy_application] gives the builder. *)
Definition job_name (application_name version : string) : string :=
  application_name ++ "-" ++ version.

Definition egg_path (application_name version : string) : string :=
  ROOT_LIBRARY_FOLDER ++ "/" ++ application_name ++ "/" ++ application_name
    ++ "-" ++ version ++ ".egg".

Definition python_file_path (application_name version : string) : string :=
  ROOT_LIBRARY_FOLDER ++ "/" ++ application_name ++ "/" ++ application_name
    ++ "-main-" ++ version ++ ".py".

(** The jobs left by [__remove_job]. *)
Definition jobs_after_remove (application_name : string) (jobs : list RemoteJob)
  : list RemoteJob :=
  match __application_job_id application_name (job_configs jobs) with
  | Ret (Some id) =>
      if Z.eqb id 0 then jobs
      else filter (fun j => negb (Z.eqb (rj_job_id j) id)) jobs
  | _ => jobs
  end.

Definition two_deployed : list RemoteJob :=
  [mkRemoteJob 1 "app-1.0.0"; mkRemoteJob 2 "app-2.0.0"].

Definition one_deployed : list RemoteJob :=
  [mkRemoteJob 5 "other-1.0.0"; mkRemoteJob 7 "app-SNAPSHOT"].

(** The config the builder returns in [example_world] for version 1.0.1. *)
Definition example_config : json :=
  built [("new_cluster",
          JDict [("spark_conf",
                  JDict [("spark.sql.warehouse.dir", JStr "/mnt/{dtap}")])]);
         ("spark_python_task", JDict []);
         ("libraries", JList [])]
        [("spark_conf", JDict [("spark.sql.warehouse.dir", JStr "/mnt/{dtap}")])]
        [("spark.sql.warehouse.dir", JStr "/mnt/{dtap}")]
        [] [] "/mnt/prd" (job_name "app" "1.0.1") (egg_path "app" "1.0.1")
        (python_file_path "app" "1.0.1").

(** The calls [__remove_job] makes after listing the jobs. *)
Definition removal_calls (application_name : string) (is_streaming : bool) (w : World)
  : list Call :=
  match __application_job_id application_name (job_configs (w_jobs w)) with
  | Ret (Some id) =>
      if Z.eqb id 0 then []
      else ((if is_streaming
             then ListRuns id true None None None :: map CancelRun (first_page w id)
             else []) ++ [DeleteJob id])%list
  | _ => []
  end.

(** Calls that look at or cancel runs, or delete a job. *)
Definition is_removal_call (c : Call) : bool :=
  match c with
  | ListRuns _ _ _ _ _ | CancelRun _ | DeleteJob _ => true
  | _ => false
  end.

(** A world without the job template file. *)
Definition no_template_world : World :=
  mkWorld (Some (mkRepo [("1.0.1", "4f2a9c")] "4f2a9c"))
          [("BUILD_SOURCEBRANCHNAME", "master"); ("BUILD_DEFINITIONNAME", "app")]
          [] [mkRemoteJob 7 "app-SNAPSHOT"] 100 (fun _ => None) [] [].

(** A world with the template and the application name but no credentials. *)
Definition no_credentials_world : World :=
  mkWorld (Some (mkRepo [("1.0.1", "4f2a9c")] "4f2a9c"))
          [("BUILD_SOURCEBRANCHNAME", "master"); ("BUILD_DEFINITIONNAME", "app")]
          [(JOB_CFG, scenario_template)]
          [mkRemoteJob 7 "app-SNAPSHOT"] 100 (fun _ => None) [] [].

(** A tagged checkout whose environment has no branch name. *)
Definition no_branch_world : World :=
  mkWorld (Some (mkRepo [("1.0.1", "4f2a9c")] "4f2a9c"))
          [("BUILD_DEFINITIONNAME", "app")]
          [(JOB_CFG, scenario_template)] [] 100 (fun _ => None) [] [].

(** A template with a schedule. *)
Definition scheduled_template : json :=
  JDict [("schedule", JDict [("quartz_cron_expression", JStr "0 0 * * * ?")]);
         ("new_cluster",
          JDict [("spark_conf",
                  JDict [("spark.sql.warehouse.dir", JStr "/mnt/{dtap}")])]);
         ("spark_python_task", JDict []);
         ("libraries", JList [])].

(** A character that can stand in a simple field name of a format string. *)
Definition field_char (c : ascii) : bool :=
  negb (Format.is_open c || Format.is_close c || Format.compound c).

(** A field name made of such characters that does not start with a digit. *)
Definition simple_field (field_name : string) : bool :=
  match field_name with
  | EmptyString => false
  | String c _ => negb (Str.is_digit c) && Str.forallb field_char field_name
  end.

(** A template whose warehouse directory names another placeholder. *)
Definition env_template : json :=
  JDict [("new_cluster",
          JDict [("spark_conf",
                  JDict [("spark.sql.warehouse.dir", JStr "/mnt/{env}/warehouse")])]);
         ("spark_python_task", JDict []);
         ("libraries", JList [])].

(** ** Facts about strings and dictionaries *)

Module StrFacts.
Import Str.

Lemma append_assoc (a b c : string) : (a ++ b) ++ c = a ++ (b ++ c).
Proof. induction a as [|x a IH]; simpl; [reflexivity | now rewrite IH]. Qed.

Lemma append_nil_r (a : string) : a ++ "" = a.
Proof. induction a as [|x a IH]; simpl; [reflexivity | now rewrite IH]. Qed.

Lemma length_append (a b : string) :
  String.length (a ++ b) = String.length a + String.length b.
Proof. induction a as [|x a IH]; simpl; [reflexivity | now rewrite IH]. Qed.

Lemma substring_prefix (a b : string) :
  substring 0 (String.length a) (a ++ b) = a.
Proof.
  induction a as [|x a IH]; simpl.
  - destruct b; reflexivity.
  - now rewrite IH.
Qed.

Lemma append_inv_head (a b c : string) : a ++ b = a ++ c -> b = c.
Proof. induction a as [|x a IH]; simpl; intros H; [assumption | injection H; auto]. Qed.

Lemma forallb_append (p : ascii -> bool) (a b : string) :
  forallb p (a ++ b) = forallb p a && forallb p b.
Proof.
  induction a as [|x a IH]; simpl; [reflexivity|].
  now rewrite IH, andb_assoc.
Qed.

End StrFacts.

Module DictFacts.
Import Dict.

Lemma get_set_same k v d : get k (set k v d) = Some v.
Proof.
  induction d as [|[k' v'] d IH]; simpl.
  - now rewrite String.eqb_refl.
  - destruct (String.eqb k k') eqn:E; simpl; rewrite E; [reflexivity | exact IH].
Qed.

Lemma get_set_other k k' v d : k <> k' -> get k (set k' v d) = get k d.
Proof.
  intros N. induction d as [|[k0 v0] d IH]; simpl.
  - apply String.eqb_neq in N. now rewrite N.
  - destruct (String.eqb k' k0) eqn:E; simpl.
    + apply String.eqb_eq in E. subst k0. apply String.eqb_neq in N. now rewrite N.
    + now rewrite IH.
Qed.

Lemma has_set_other k k' v d : k <> k' -> has k (set k' v d) = has k d.
Proof. intros N. unfold has. now rewrite get_set_other. Qed.

End DictFacts.

Module ReFacts.
Import Re ReSem StrFacts.

Lemma many_sound a g k s : forall i x,
  many a g k i s = Some x ->
  exists p s', s = p ++ s' /\ Str.forallb (cls_matches a) p = true
               /\ k (i + String.length p) s' g = Some x.
Proof.
  induction s as [|c s IH]; intros i x H; simpl in H.
  - exists "", "". simpl. now rewrite Nat.add_0_r.
  - destruct (cls_matches a c) eqn:E.
    + destruct (many a g k (S i) s) eqn:E1.
      * injection H as <-. destruct (IH _ _ E1) as (p & s' & -> & Hp & Hk).
        exists (String c p), s'. simpl. rewrite E, Hp.
        now rewrite Nat.add_succ_r.
      * exists "", (String c s). simpl. now rewrite Nat.add_0_r.
    + exists "", (String c s). simpl. now rewrite Nat.add_0_r.
Qed.

Lemma many_complete a g k p : forall s' i,
  Str.forallb (cls_matches a) p = true ->
  k (i + String.length p) s' g <> None ->
  many a g k i (p ++ s') <> None.
Proof.
  induction p as [|c p IH]; intros s' i Hp Hk; simpl in *.
  - rewrite Nat.add_0_r in Hk. destruct s' as [|c s']; simpl; [assumption|].
    destruct (cls_matches a c); [|assumption].
    destruct (many a g k (S i) s'); [discriminate | assumption].
  - apply andb_prop in Hp as [Hc Hp]. rewrite Hc.
    rewrite Nat.add_succ_r in Hk.
    specialize (IH s' (S i) Hp Hk).
    destruct (many a g k (S i) (p ++ s')); [discriminate | contradiction].
Qed.

(** Whatever the matcher hands to its continuation is a match of the pattern,
    and only the groups of the pattern have been rebound. *)
Lemma rmatch_sound r : forall i s g k x,
  rmatch r i s g k = Some x ->
  exists i' s' g',
    lang r i s i' s' /\ k i' s' g' = Some x
    /\ (forall n, has_group n r = false -> group n g' = group n g).
Proof.
  induction r as [|a|a|r1 IH1 r2 IH2|r1 IH1 r2 IH2|m r1 IH1| |];
    intros i s g k x H; simpl in H.
  - exists i, s, g. simpl. auto.
  - destruct s as [|c s]; [discriminate|].
    destruct (cls_matches a c) eqn:E; [|discriminate].
    exists (S i), s, g. simpl. split; [exists c; auto | auto].
  - destruct (many_sound _ _ _ _ _ _ H) as (p & s' & -> & Hp & Hk).
    exists (i + String.length p), s', g. simpl. split; [exists p; auto | auto].
  - destruct (IH1 _ _ _ _ _ H) as (im & sm & gm & L1 & Hk & G1).
    destruct (IH2 _ _ _ _ _ Hk) as (i' & s' & g' & L2 & Hk' & G2).
    exists i', s', g'. simpl. split; [exists im, sm; auto|]. split; [assumption|].
    intros n Hn. apply orb_false_elim in Hn as [Hn1 Hn2].
    now rewrite G2, G1.
  - destruct (rmatch r1 i s g k) eqn:E1.
    + injection H as <-. destruct (IH1 _ _ _ _ _ E1) as (i' & s' & g' & L & Hk & G).
      exists i', s', g'. simpl. split; [auto|]. split; [assumption|].
      intros n Hn. apply orb_false_elim in Hn as [Hn1 Hn2]. auto.
    + destruct (IH2 _ _ _ _ _ H) as (i' & s' & g' & L & Hk & G).
      exists i', s', g'. simpl. split; [auto|]. split; [assumption|].
      intros n Hn. apply orb_false_elim in Hn as [Hn1 Hn2]. auto.
  - destruct (IH1 _ _ _ _ _ H) as (i' & s' & g' & L & Hk & G).
    exists i', s', ((m, substring 0 (i' - i) s) :: g'). simpl.
    split; [assumption|]. split; [assumption|].
    intros n Hn. apply orb_false_elim in Hn as [Hn1 Hn2]. rewrite Hn1. auto.
  - destruct (Nat.eqb i 0) eqn:E; [|discriminate]. apply Nat.eqb_eq in E.
    exists i, s, g. simpl. auto.
  - destruct (at_eol s) eqn:E; [|discriminate].
    exists i, s, g. simpl. auto.
Qed.

(** A match of the pattern after which the continuation cannot fail is
    found, possibly after another one. *)
Lemma rmatch_complete r : forall i s i' s',
  lang r i s i' s' ->
  forall g k, (forall g', k i' s' g' <> None) -> rmatch r i s g k <> None.
Proof.
  induction r as [|a|a|r1 IH1 r2 IH2|r1 IH1 r2 IH2|m r1 IH1| |];
    intros i s i' s' L g k Hk; simpl in L |- *.
  - destruct L as [-> ->]. apply Hk.
  - destruct L as (c & -> & E & ->). rewrite E. apply Hk.
  - destruct L as (p & -> & Hp & ->). apply many_complete; auto.
  - destruct L as (im & sm & L1 & L2).
    apply (IH1 _ _ _ _ L1). intros g'. apply (IH2 _ _ _ _ L2). assumption.
  - destruct L as [L|L].
    + specialize (IH1 _ _ _ _ L g k Hk).
      destruct (rmatch r1 i s g k); [discriminate | contradiction].
    + destruct (rmatch r1 i s g k); [discriminate|].
      apply (IH2 _ _ _ _ L). assumption.
  - apply (IH1 _ _ _ _ L). intros g'. apply Hk.
  - destruct L as (-> & -> & ->). simpl. apply Hk.
  - destruct L as (E & -> & ->). rewrite E. apply Hk.
Qed.

Lemma rmatch_atoms cs : forall i s g k,
  rmatch (seq_of (map Atom cs)) i s g k =
  match atoms_prefix cs s with
  | Some s' => k (i + List.length cs) s' g
  | None => None
  end.
Proof.
  induction cs as [|a cs IH]; intros i s g k; simpl.
  - now rewrite Nat.add_0_r.
  - destruct s as [|c s]; [reflexivity|].
    destruct (cls_matches a c); [|reflexivity].
    rewrite IH. now rewrite Nat.add_succ_r.
Qed.

Lemma atoms_prefix_split cs : forall s s',
  atoms_prefix cs s = Some s' ->
  exists p, s = p ++ s' /\ String.length p = List.length cs.
Proof.
  induction cs as [|a cs IH]; intros s s' H; simpl in H.
  - injection H as <-. now exists "".
  - destruct s as [|c s]; [discriminate|].
    destruct (cls_matches a c); [|discriminate].
    destruct (IH _ _ H) as (p & -> & Hl). exists (String c p). simpl. auto.
Qed.

Lemma search_from_bol r s : forall i, search_from (Seq Bol r) (S i) s = None.
Proof. induction s as [|c s IH]; intros i; simpl; [reflexivity | apply IH]. Qed.

Lemma search_bol r s : search (Seq Bol r) s = rmatch (Seq Bol r) 0 s [] accept.
Proof.
  unfold search. destruct s as [|c s]; simpl.
  - now destruct (rmatch r 0 "" [] accept).
  - destruct (rmatch r 0 (String c s) [] accept); [reflexivity|].
    apply search_from_bol.
Qed.

End ReFacts.


Module CompileFacts.
Import Re ReSem StrFacts.

Lemma pstep_name_char st c :
  p_esc st = false ->
  negb (special c) || Ascii.eqb c "." = true ->
  pstep st c = emit (Atom (cls_of c)) st.
Proof.
  intros E H. unfold pstep. rewrite E.
  destruct c as [[] [] [] [] [] [] [] []]; try discriminate H; reflexivity.
Qed.

Lemma psteps_name A rest : forall cur stack next,
  dotted A = true ->
  psteps (A ++ rest) (PState cur stack next false) =
  psteps rest (PState (Frame (f_group cur) (f_alts cur)
                             (rev (name_items A) ++ f_seq cur)%list)
                      stack next false).
Proof.
  induction A as [|c A IH]; intros [n alts items] stack next H; simpl in *.
  - reflexivity.
  - apply andb_prop in H as [Hc HA].
    rewrite pstep_name_char by (auto). unfold emit, push_item. simpl.
    rewrite IH by assumption. simpl.
    unfold name_items. simpl. now rewrite <- app_assoc.
Qed.

Lemma psteps_job_prefix :
  psteps "^(" p_init = Some (PState (Frame 1 [] []) [Frame 0 [] [Bol]] 2 false).
Proof. reflexivity. Qed.

Lemma psteps_job_suffix items :
  psteps ")-(SNAPSHOT|\d+\.\d+\.\d+)$"
         (PState (Frame 1 [] items) [Frame 0 [] [Bol]] 2 false) =
  Some (PState (Frame 0 [] [Eol; version_group; Atom (Lit "-");
                            Group 1 (seq_of (rev items)); Bol])
               [] 3 false).
Proof. vm_compute. reflexivity. Qed.

Lemma psteps_append a : forall b st,
  psteps (a ++ b) st =
  match psteps a st with
  | Some st' => psteps b st'
  | None => None
  end.
Proof.
  induction a as [|c a IH]; intros b st; simpl; [reflexivity|].
  destruct (pstep st c); [apply IH | reflexivity].
Qed.

Lemma compile_job_pattern A :
  dotted A = true ->
  compile (job_pattern A) = Some (job_regex (map cls_of (Str.chars A))).
Proof.
  intros H. unfold compile, job_pattern.
  rewrite psteps_append, psteps_job_prefix.
  rewrite psteps_name by assumption.
  rewrite psteps_job_suffix.
  cbn [p_stack p_esc p_cur f_seq f_alts f_group].
  rewrite app_nil_r, rev_involutive.
  unfold frame_regex, job_regex, name_items.
  cbn [rev app alt_of seq_of fold_right f_alts f_seq].
  rewrite map_map. reflexivity.
Qed.

End CompileFacts.


Module MatchFacts.
Import Re ReSem StrFacts ReFacts CompileFacts.

Lemma append_inj_length a : forall c b d,
  String.length a = String.length c -> a ++ b = c ++ d -> a = c /\ b = d.
Proof.
  induction a as [|x a IH]; intros [|y c] b d Hl H; simpl in *; try discriminate.
  - auto.
  - injection H as -> H. injection Hl as Hl.
    destruct (IH _ _ _ Hl H) as [-> ->]. auto.
Qed.

Lemma append_inv_tail a c b : a ++ b = c ++ b -> a = c.
Proof.
  intros H. apply (append_inj_length a c b b); [|assumption].
  apply (f_equal String.length) in H. rewrite !length_append in H. lia.
Qed.

Lemma lang_literal l : forall i s i' s',
  lang (literal l) i s i' s' <-> s = l ++ s' /\ i' = i + String.length l.
Proof.
  unfold literal. induction l as [|c l IH]; intros i s i' s'; simpl.
  - rewrite Nat.add_0_r. intuition congruence.
  - split.
    + intros (im & sm & (c0 & -> & E & ->) & L). apply IH in L as [-> ->].
      apply Ascii.eqb_eq in E. subst c0. split; [reflexivity | lia].
    + intros [-> ->]. exists (S i), (l ++ s'). split.
      * exists c. rewrite Ascii.eqb_refl. auto.
      * apply IH. split; [reflexivity | lia].
Qed.

Lemma lang_plus_digit i s i' s' :
  lang (plus Digit) i s i' s' <->
  exists d, digits d /\ s = d ++ s' /\ i' = i + String.length d.
Proof.
  unfold plus, digits. cbn [lang]. change (cls_matches Digit) with Str.is_digit.
  split.
  - intros (im & sm & (c & -> & E & ->) & (p & -> & Hp & ->)).
    exists (String c p). cbn [Str.forallb String.length append]. rewrite E, Hp.
    repeat split; [discriminate | lia].
  - intros (d & [Hne Hd] & -> & ->). destruct d as [|c d]; [congruence|].
    cbn [Str.forallb] in Hd. apply andb_prop in Hd as [Hc Hd].
    exists (S i), (d ++ s'). split; [exists c; auto|].
    exists d. cbn [String.length]. repeat split; [assumption | lia].
Qed.

Lemma at_eol_iff s : at_eol s = true <-> s = "" \/ s = NEWLINE.
Proof.
  unfold NEWLINE. destruct s as [|c [|c' s]]; simpl.
  - intuition.
  - rewrite Ascii.eqb_eq. split; [intros ->; auto | intros [H|H]; congruence].
  - split; [discriminate | intros [H|H]; discriminate].
Qed.

Lemma lang_atom_lit c i s i' s' :
  lang (Atom (Lit c)) i s i' s' <-> s = String c s' /\ i' = S i.
Proof.
  simpl. split.
  - intros (c0 & -> & E & ->). apply Ascii.eqb_eq in E. now subst.
  - intros [-> ->]. exists c. rewrite Ascii.eqb_refl. auto.
Qed.

(** The language of [(SNAPSHOT|\d+\.\d+\.\d+)]. *)
Lemma lang_version_group i s i' s' :
  lang version_group i s i' s' <->
  exists V, version V /\ s = V ++ s' /\ i' = i + String.length V.
Proof.
  unfold version_group.
  change (lang (Group 2 ?r) i s i' s') with (lang r i s i' s').
  cbn [lang seq_of fold_right]. rewrite lang_literal. split.
  - intros [[-> ->] | (i1 & s1 & L1 & i2 & s2 & L2 & i3 & s3 & L3 & i4 & s4 & L4
                       & i5 & s5 & L5 & -> & ->)].
    + exists "SNAPSHOT". split; [constructor | auto].
    + apply lang_plus_digit in L1 as (a & Ha & -> & ->).
      apply lang_atom_lit in L2 as [-> ->].
      apply lang_plus_digit in L3 as (b & Hb & -> & ->).
      apply lang_atom_lit in L4 as [-> ->].
      apply lang_plus_digit in L5 as (c & Hc & -> & ->).
      exists (a ++ "." ++ b ++ "." ++ c). split; [now constructor|]. split.
      * rewrite !append_assoc. simpl. rewrite ?append_assoc. reflexivity.
      * rewrite !length_append. simpl. rewrite ?length_append. simpl. rewrite ?length_append. simpl. lia.
  - intros (V & HV & -> & ->). destruct HV as [|a b c Ha Hb Hc].
    + left. auto.
    + right.
      exists (i + String.length a), ("." ++ b ++ "." ++ c ++ s'). split.
      { apply lang_plus_digit. exists a. rewrite !append_assoc. simpl.
        rewrite ?append_assoc. auto. }
      exists (S (i + String.length a)), (b ++ "." ++ c ++ s'). split.
      { apply lang_atom_lit. auto. }
      exists (S (i + String.length a) + String.length b), ("." ++ c ++ s'). split.
      { apply lang_plus_digit. exists b. auto. }
      exists (S (S (i + String.length a) + String.length b)), (c ++ s'). split.
      { apply lang_atom_lit. auto. }
      exists (S (S (i + String.length a) + String.length b) + String.length c), s'. split.
      { apply lang_plus_digit. exists c. auto. }
      split; [|reflexivity].
      rewrite !length_append. simpl. rewrite ?length_append. simpl. rewrite ?length_append. simpl. lia.
Qed.

(** The language of what follows the application name in the job pattern. *)
Lemma lang_job_tail i s :
  (exists i' s', lang job_tail i s i' s') <->
  exists V nl, version V /\ (nl = "" \/ nl = NEWLINE) /\ s = "-" ++ V ++ nl.
Proof.
  unfold job_tail. split.
  - intros (i' & s' & L). cbn [lang] in L.
    destruct L as (i1 & s1 & L1 & i2 & s2 & L2 & i3 & s3 & (E & _ & _) & _ & _).
    fold (lang (Atom (Lit "-")) i s i1 s1) in L1.
    apply lang_atom_lit in L1 as [-> ->].
    apply lang_version_group in L2 as (V & HV & -> & _).
    apply at_eol_iff in E. exists V, s2. auto.
  - intros (V & nl & HV & Hnl & ->).
    exists (S i + String.length V), nl.
    change (lang (Seq (Atom (Lit "-")) (Seq version_group (Seq Eol Eps))) i
                 ("-" ++ V ++ nl) (S i + String.length V) nl)
      with (exists im sm, lang (Atom (Lit "-")) i ("-" ++ V ++ nl) im sm /\
            exists im2 sm2, lang version_group im sm im2 sm2 /\
            exists im3 sm3, (at_eol sm2 = true /\ im3 = im2 /\ sm3 = sm2) /\
                            (S i + String.length V = im3 /\ nl = sm3)).
    exists (S i), (V ++ nl). split; [apply lang_atom_lit; auto|].
    exists (S i + String.length V), nl. split.
    { apply lang_version_group. exists V. auto. }
    exists (S i + String.length V), nl. rewrite at_eol_iff. auto.
Qed.

Lemma cls_of_matches c : cls_matches (cls_of c) c = true.
Proof.
  unfold cls_of. destruct (Ascii.eqb c ".") eqn:E; simpl.
  - apply Ascii.eqb_eq in E. subst c. reflexivity.
  - apply Ascii.eqb_refl.
Qed.

Lemma atoms_prefix_name A rest :
  atoms_prefix (map cls_of (Str.chars A)) (A ++ rest) = Some rest.
Proof.
  induction A as [|c A IH]; simpl; [reflexivity|].
  now rewrite cls_of_matches.
Qed.

Lemma atoms_prefix_plain A : forall s s',
  plain A = true ->
  atoms_prefix (map cls_of (Str.chars A)) s = Some s' -> s = A ++ s'.
Proof.
  induction A as [|c A IH]; intros s s' HA H; simpl in *.
  - now injection H.
  - apply andb_prop in HA as [Hc HA]. destruct s as [|c0 s]; [discriminate|].
    unfold cls_of in H. destruct (Ascii.eqb c ".") eqn:E.
    + apply Ascii.eqb_eq in E. subst c. discriminate Hc.
    + simpl in H. destruct (Ascii.eqb c c0) eqn:E0; [|discriminate].
      apply Ascii.eqb_eq in E0. subst c0. f_equal. now apply IH.
Qed.

Lemma chars_length A : List.length (Str.chars A) = String.length A.
Proof. induction A as [|c A IH]; simpl; congruence. Qed.

Lemma job_tail_no_group1 : has_group 1 job_tail = false.
Proof. reflexivity. Qed.

(** What a search with the compiled job pattern returns: nothing, or groups
    whose first is the part of the subject before the tail. *)
Lemma search_job_regex cs n :
  search (job_regex cs) n =
  match atoms_prefix cs n with
  | Some rest =>
      rmatch job_tail (List.length cs) rest
             [(1, substring 0 (List.length cs) n)] accept
  | None => None
  end.
Proof.
  unfold job_regex. rewrite search_bol.
  cbn [rmatch Nat.eqb]. rewrite rmatch_atoms.
  destruct (atoms_prefix cs n); [|reflexivity].
  now rewrite Nat.add_0_l, Nat.sub_0_r.
Qed.

Lemma search_job_regex_some cs n g :
  search (job_regex cs) n = Some g ->
  exists p rest,
    n = p ++ rest /\ atoms_prefix cs n = Some rest
    /\ group 1 g = Some p
    /\ exists V nl, version V /\ (nl = "" \/ nl = NEWLINE) /\ rest = "-" ++ V ++ nl.
Proof.
  rewrite search_job_regex. destruct (atoms_prefix cs n) as [rest|] eqn:E; [|discriminate].
  intros H. destruct (atoms_prefix_split _ _ _ E) as (p & -> & Hl).
  apply rmatch_sound in H as (i' & s' & g' & L & Hk & G).
  injection Hk as ->. exists p, rest. repeat split; try assumption.
  - rewrite (G 1 job_tail_no_group1). simpl. rewrite <- Hl.
    now rewrite substring_prefix.
  - apply (lang_job_tail (List.length cs) rest). eauto.
Qed.

Lemma search_job_regex_named A V nl :
  version V -> nl = "" \/ nl = NEWLINE ->
  exists g, search (job_regex (map cls_of (Str.chars A))) (A ++ "-" ++ V ++ nl) = Some g
            /\ group 1 g = Some A.
Proof.
  intros HV Hnl.
  destruct (search (job_regex (map cls_of (Str.chars A))) (A ++ "-" ++ V ++ nl))
    as [g|] eqn:E.
  - exists g. split; [reflexivity|].
    destruct (search_job_regex_some _ _ _ E) as (p & rest & Hn & Hp & Hg & _).
    rewrite atoms_prefix_name in Hp. injection Hp as Hr. rewrite <- Hr in Hn.
    rewrite Hg. f_equal. symmetry. now apply append_inv_tail in Hn.
  - exfalso. rewrite search_job_regex, atoms_prefix_name in E.
    revert E. 
    assert (L : exists i' s', lang job_tail (List.length (map cls_of (Str.chars A)))
                                   ("-" ++ V ++ nl) i' s').
    { apply lang_job_tail. eauto. }
    destruct L as (i' & s' & L).
    apply (rmatch_complete _ _ _ _ _ L). intros g'. discriminate.
Qed.

(** For a name whose only special characters are dots, [has_match] holds of
    exactly the job names made of the name, a dash and a version. *)
Lemma has_match_iff A n :
  has_match (job_regex (map cls_of (Str.chars A))) A n = true <->
  names_application A n.
Proof.
  unfold has_match, names_application. split.
  - destruct (search _ n) as [g|] eqn:E; [|discriminate].
    intros H. destruct (search_job_regex_some _ _ _ E) as (p & rest & -> & _ & Hg & V & nl & HV & Hnl & ->).
    rewrite Hg in H. simpl in H. apply String.eqb_eq in H. subst p. eauto.
  - intros (V & nl & HV & Hnl & ->).
    destruct (search_job_regex_named A V nl HV Hnl) as (g & -> & ->).
    simpl. apply String.eqb_refl.
Qed.

(** For a name without special characters the guard on the first group is
    redundant: a subject that matches is the name, a dash and a version. *)
Lemma search_plain A n g :
  plain A = true ->
  search (job_regex (map cls_of (Str.chars A))) n = Some g ->
  names_application A n.
Proof.
  intros HA E.
  destruct (search_job_regex_some _ _ _ E) as (p & rest & Hn & Hp & _ & V & nl & HV & Hnl & ->).
  apply (atoms_prefix_plain _ _ _ HA) in Hp. unfold names_application. eauto.
Qed.

End MatchFacts.


Module MatcherFacts.
Import Re ReSem StrFacts ReFacts CompileFacts MatchFacts.

Lemma dashes_append a b : dashes (a ++ b) = dashes a + dashes b.
Proof. induction a as [|c a IH]; simpl; [reflexivity | rewrite IH; lia]. Qed.

Lemma digits_no_dash d : Str.forallb Str.is_digit d = true -> dashes d = 0.
Proof.
  induction d as [|c d IH]; simpl; [reflexivity|].
  intros H. apply andb_prop in H as [Hc Hd]. rewrite (IH Hd).
  destruct (Ascii.eqb c "-") eqn:E; [|reflexivity].
  apply Ascii.eqb_eq in E. subst c. discriminate Hc.
Qed.

Lemma version_no_dash V : version V -> dashes V = 0.
Proof.
  intros [|a b c [_ Ha] [_ Hb] [_ Hc]]; [reflexivity|].
  rewrite !dashes_append, (digits_no_dash a), (digits_no_dash b), (digits_no_dash c);
    auto.
Qed.

(** A job name with something between the application name and the dash is
    not a name of the application. *)
Lemma not_named_with_suffix A X V :
  X <> "" -> version V -> ~ names_application A (A ++ X ++ "-" ++ V).
Proof.
  intros HX HV (V' & nl & HV' & Hnl & H).
  apply append_inv_head in H.
  destruct X as [|c X]; [congruence|].
  simpl in H. injection H as _ H. apply (f_equal dashes) in H.
  rewrite !dashes_append in H. simpl in H.
  rewrite (version_no_dash V HV), (version_no_dash V' HV') in H.
  assert (dashes nl = 0) by (destruct Hnl; subst nl; reflexivity).
  lia.
Qed.

Lemma find_first {A} (f : A -> bool) l x :
  find f l = Some x ->
  exists before after,
    l = (before ++ x :: after)%list /\ f x = true /\ Forall (fun y => f y = false) before.
Proof.
  induction l as [|y l IH]; simpl; [discriminate|].
  destruct (f y) eqn:E.
  - intros [= ->]. exists [], l. auto.
  - intros H. destruct (IH H) as (before & after & -> & Hx & Hb).
    exists (y :: before), after. auto.
Qed.

Lemma find_none_all {A} (f : A -> bool) l :
  find f l = None -> Forall (fun y => f y = false) l.
Proof.
  intros H. apply Forall_forall. intros y Hy. exact (find_none f l H y Hy).
Qed.

Lemma has_match_false A n :
  has_match (job_regex (map cls_of (Str.chars A))) A n = false ->
  ~ names_application A n.
Proof. intros H N. apply has_match_iff in N. congruence. Qed.

(** The matcher on a name whose only special characters are dots: the id of
    the first job the name names, if there is one. *)
Lemma application_job_id_dotted A jobs :
  dotted A = true ->
  exists r,
    __application_job_id A jobs = Ret r /\
    match r with
    | Some id => exists j, first_named A jobs j /\ job_id j = id
    | None => Forall (fun j => ~ names_application A (name j)) jobs
    end.
Proof.
  intros HA. unfold __application_job_id. rewrite (compile_job_pattern A HA).
  eexists. split; [reflexivity|].
  destruct (find _ jobs) as [j|] eqn:E; simpl.
  - exists j. split; [|reflexivity].
    destruct (find_first _ _ _ E) as (before & after & -> & Hj & Hb).
    exists before, after. split; [reflexivity|]. split.
    + now apply has_match_iff.
    + eapply Forall_impl; [|exact Hb]. intros j'. apply has_match_false.
  - eapply Forall_impl; [|exact (find_none_all _ _ E)].
    intros j'. apply has_match_false.
Qed.

End MatcherFacts.

Import Re ReSem StrFacts MatcherFacts.

Lemma digits_intro d :
  d <> "" -> Str.forallb Str.is_digit d = true -> digits d.
Proof. now split. Qed.

Lemma version_1_0_0 : version "1.0.0".
Proof.
  apply (version_numbers "1" "0" "0"); apply digits_intro;
    (discriminate || reflexivity).
Qed.

(** C1, as stated, fails: with two versions of the application deployed, the
    matcher returns the id of the first one listed, which is not the one
    named [app-1.0.0]. *)
Lemma application_job_id_two_versions :
  version "1.0.0"
  /\ In (mkJobConfig "app-1.0.0" 2) two_versions
  /\ __application_job_id "app" two_versions = Ret (Some 1%Z)
  /\ ~ (exists j, In j two_versions /\ name j = "app" ++ "-" ++ "1.0.0"
                  /\ __application_job_id "app" two_versions = Ret (Some (job_id j))).
Proof.
  split; [exact version_1_0_0|]. split; [right; left; reflexivity|].
  split; [vm_compute; reflexivity|].
  intros (j & [<-|[<-|[]]] & Hn & Hr);
    [discriminate Hn | vm_compute in Hr; discriminate Hr].
Qed.

(** C1 (amended): for every application name whose only characters with a
    meaning in a regular expression are dots, the matcher returns the id of
    the first job in the list whose name is the application name, a dash and
    a version ([SNAPSHOT] or [\d+\.\d+\.\d+]), possibly followed by one line
    feed, and [None] when there is no such job. So when a job named [A-V] is
    listed, the id of the first listed job of that form is returned, and the
    job it belongs to is never named [AX-V] for a nonempty [X]. *)
Theorem application_job_id_first_named (A : string) (jobs : list JobConfig) :
  dotted A = true ->
  (exists r,
      __application_job_id A jobs = Ret r /\
      match r with
      | Some id => exists j, first_named A jobs j /\ job_id j = id
      | None => Forall (fun j => ~ names_application A (name j)) jobs
      end)
  /\ (forall V,
         version V ->
         (exists j, In j jobs /\ name j = A ++ "-" ++ V) ->
         exists j, first_named A jobs j
                   /\ __application_job_id A jobs = Ret (Some (job_id j)))
  /\ (forall j X V,
         first_named A jobs j -> X <> "" -> version V ->
         name j <> A ++ X ++ "-" ++ V).
Proof.
  intros HA. destruct (application_job_id_dotted A jobs HA) as (r & Hr & Hs).
  split; [eauto|]. split.
  - intros V HV (j & Hj & Hn). destruct r as [id|].
    + destruct Hs as (j' & Hf & <-). eauto.
    + exfalso. rewrite Forall_forall in Hs. apply (Hs j Hj).
      exists V, "". rewrite Hn, append_nil_r. auto.
  - intros j X V (before & after & _ & Hn & _) HX HV E.
    rewrite E in Hn. exact (not_named_with_suffix A X V HX HV Hn).
Qed.

Lemma application_job_id_first_named_witness :
  dotted "my.app" = true
  /\ exists j, first_named "my.app" dotted_jobs j
               /\ __application_job_id "my.app" dotted_jobs = Ret (Some (job_id j)).
Proof.
  split; [reflexivity|].
  apply (proj1 (proj2 (application_job_id_first_named "my.app" dotted_jobs eq_refl))
               "SNAPSHOT" version_snapshot).
  exists (mkJobConfig "my.app-SNAPSHOT" 4).
  split; [right; left; reflexivity | reflexivity].
Defined.

(** The application name is put into the pattern as it is: a name with a
    repetition operator in it does not match its own job. *)
Example application_job_id_unescaped :
  __application_job_id "a+" [mkJobConfig "a+-1.0.0" 5] = Ret None.
Proof. vm_compute. reflexivity. Qed.


Module BuilderFacts.
Import DictFacts.

Lemma construct_inv t name dtap egg python_file cfg :
  construct t name dtap egg python_file = Ret cfg ->
  exists d nc sc wd wd' spt libs,
    t = JDict d
    /\ Dict.get "new_cluster" d = Some (JDict nc)
    /\ Dict.get "spark_conf" nc = Some (JDict sc)
    /\ Dict.get "spark.sql.warehouse.dir" sc = Some (JStr wd)
    /\ Format.format wd (Str.lower dtap) = Ret wd'
    /\ Dict.get "spark_python_task" d = Some (JDict spt)
    /\ Dict.get "libraries" d = Some (JList libs)
    /\ cfg = built d nc sc spt libs wd' name egg python_file.
Proof.
  unfold construct. intros H.
  destruct t as [| | | | |l|d]; try discriminate H.
  cbn [getitem res_bind] in H.
  destruct (Dict.get "new_cluster" d) as [v|] eqn:Enc; [|discriminate H].
  cbn [res_bind] in H.
  destruct v as [| | | | |l|nc]; try discriminate H.
  cbn [getitem res_bind] in H.
  destruct (Dict.get "spark_conf" nc) as [v|] eqn:Esc; [|discriminate H].
  cbn [res_bind] in H.
  destruct v as [| | | | |l|sc]; try discriminate H.
  cbn [getitem res_bind] in H.
  destruct (Dict.get "spark.sql.warehouse.dir" sc) as [v|] eqn:Ewd; [|discriminate H].
  cbn [res_bind] in H.
  destruct v as [| | | |wd|l|d0]; try discriminate H.
  cbn [format_method res_bind] in H.
  destruct (Format.format wd (Str.lower dtap)) as [wd'|e] eqn:Ef; [|discriminate H].
  cbn [res_bind setitem getitem] in H.
  rewrite !get_set_other in H by discriminate.
  destruct (Dict.get "spark_python_task" d) as [v|] eqn:Espt; [|discriminate H].
  cbn [res_bind] in H.
  destruct v as [| | | | |l|spt]; try discriminate H.
  cbn [res_bind setitem getitem] in H.
  rewrite !get_set_other in H by discriminate.
  destruct (Dict.get "libraries" d) as [v|] eqn:El; [|discriminate H].
  cbn [res_bind] in H.
  destruct v as [| | | | |libs|d0]; try discriminate H.
  cbn [res_bind append setitem] in H.
  injection H as <-.
  exists d, nc, sc, wd, wd', spt, libs. repeat split; assumption || reflexivity.
Qed.

Lemma construct_ok d nc sc wd wd' spt libs name dtap egg python_file :
  Dict.get "new_cluster" d = Some (JDict nc) ->
  Dict.get "spark_conf" nc = Some (JDict sc) ->
  Dict.get "spark.sql.warehouse.dir" sc = Some (JStr wd) ->
  Format.format wd (Str.lower dtap) = Ret wd' ->
  Dict.get "spark_python_task" d = Some (JDict spt) ->
  Dict.get "libraries" d = Some (JList libs) ->
  construct (JDict d) name dtap egg python_file =
  Ret (built d nc sc spt libs wd' name egg python_file).
Proof.
  intros Enc Esc Ewd Ef Espt El. unfold construct.
  cbn [getitem res_bind]. rewrite Enc. cbn [getitem res_bind]. rewrite Esc.
  cbn [getitem res_bind]. rewrite Ewd. cbn [format_method res_bind]. rewrite Ef.
  cbn [res_bind setitem getitem].
  rewrite !get_set_other by discriminate. rewrite Espt.
  cbn [res_bind setitem getitem].
  rewrite !get_set_other by discriminate. rewrite El.
  reflexivity.
Qed.

End BuilderFacts.


Module FormatFacts.
Import Format StrFacts.

Lemma run_text_brace_free s v :
  brace_free s = true -> run Text s v = Ret s.
Proof.
  unfold brace_free. induction s as [|c s IH]; simpl; [reflexivity|].
  intros H. apply andb_prop in H as [Hc Hs].
  apply negb_true_iff, orb_false_elim in Hc as [Ho Hcl].
  rewrite Ho, Hcl, (IH Hs). reflexivity.
Qed.

Lemma run_text_placeholder p v :
  brace_free p = true -> run Text (p ++ "{dtap}") v = Ret (p ++ v).
Proof.
  unfold brace_free. induction p as [|c p IH]; simpl.
  - intros _. now rewrite append_nil_r.
  - intros H. apply andb_prop in H as [Hc Hs].
    apply negb_true_iff, orb_false_elim in Hc as [Ho Hcl].
    rewrite Ho, Hcl, (IH Hs). reflexivity.
Qed.

End FormatFacts.

Module PathFacts.
Import DictFacts BuilderFacts.

Section Built.
Variables (d nc sc spt : Dict.t) (libs : list json).
Variables (wd name egg python_file : string).
Hypothesis Hnc : Dict.get "new_cluster" d = Some (JDict nc).
Hypothesis Hsc : Dict.get "spark_conf" nc = Some (JDict sc).
Hypothesis Hspt : Dict.get "spark_python_task" d = Some (JDict spt).
Hypothesis Hlibs : Dict.get "libraries" d = Some (JList libs).

Local Abbreviation cfg := (built d nc sc spt libs wd name egg python_file).

Lemma built_warehouse_dir : json_path WAREHOUSE_DIR cfg = Some (JStr wd).
Proof.
  unfold cfg, built, WAREHOUSE_DIR. cbn [json_path].
  rewrite !get_set_other by discriminate. rewrite get_set_same.
  rewrite get_set_same. now rewrite get_set_same.
Qed.

Lemma built_name : json_path ["name"] cfg = Some (JStr name).
Proof.
  unfold cfg, built. cbn [json_path].
  rewrite !get_set_other by discriminate. now rewrite get_set_same.
Qed.

Lemma built_python_file :
  json_path ["spark_python_task"; "python_file"] cfg = Some (JStr python_file).
Proof.
  unfold cfg, built. cbn [json_path].
  rewrite !get_set_other by discriminate. rewrite get_set_same.
  now rewrite get_set_same.
Qed.

Lemma built_libraries :
  json_path ["libraries"] cfg = Some (JList (libs ++ [egg_entry egg])).
Proof. unfold cfg, built. cbn [json_path]. now rewrite get_set_same. Qed.

Lemma built_key k :
  k <> "new_cluster" -> k <> "name" -> k <> "spark_python_task" -> k <> "libraries" ->
  forall d', cfg = JDict d' -> Dict.get k d' = Dict.get k d.
Proof.
  intros N1 N2 N3 N4 d' E. unfold cfg, built in E. injection E as <-.
  now rewrite !get_set_other by assumption.
Qed.

(** A path that does not meet the four written ones leads to what it led to
    in the template. *)
Lemma built_frame p :
  (forall m, In m written_paths -> apart p m = true) ->
  json_path p cfg = json_path p (JDict d).
Proof.
  intros H.
  assert (H1 := H _ (or_introl eq_refl)).
  assert (H2 := H _ (or_intror (or_introl eq_refl))).
  assert (H3 := H _ (or_intror (or_intror (or_introl eq_refl)))).
  assert (H4 := H _ (or_intror (or_intror (or_intror (or_introl eq_refl))))).
  clear H. unfold apart, WAREHOUSE_DIR in *.
  destruct p as [|k p]; [cbn in H1; discriminate H1|].
  unfold cfg, built. cbn [json_path].
  cbn [is_prefix] in H1, H2, H3, H4.
  destruct (String.eqb k "name") eqn:Ename.
  { apply String.eqb_eq in Ename. subst k. destruct p; cbn in H2; discriminate H2. }
  destruct (String.eqb k "libraries") eqn:Elib.
  { apply String.eqb_eq in Elib. subst k. destruct p; cbn in H4; discriminate H4. }
  apply String.eqb_neq in Ename, Elib.
  rewrite (get_set_other k "libraries") by assumption.
  destruct (String.eqb k "spark_python_task") eqn:Espt.
  - apply String.eqb_eq in Espt. subst k.
    rewrite get_set_same, Hspt.
    cbn [String.eqb Ascii.eqb Bool.eqb andb] in H3.
    destruct p as [|k2 p]; [discriminate H3|]. cbn [json_path].
    cbn [is_prefix] in H3.
    destruct (String.eqb k2 "python_file") eqn:Epy.
    { apply String.eqb_eq in Epy. subst k2. destruct p; cbn in H3; discriminate H3. }
    apply String.eqb_neq in Epy. now rewrite get_set_other.
  - apply String.eqb_neq in Espt.
    rewrite (get_set_other k "spark_python_task") by assumption.
    rewrite (get_set_other k "name") by assumption.
    destruct (String.eqb k "new_cluster") eqn:Enc.
    + apply String.eqb_eq in Enc. subst k.
      rewrite get_set_same, Hnc.
      cbn [String.eqb Ascii.eqb Bool.eqb andb] in H1.
      destruct p as [|k2 p]; [discriminate H1|]. cbn [json_path].
      cbn [is_prefix] in H1.
      destruct (String.eqb k2 "spark_conf") eqn:Esc.
      * apply String.eqb_eq in Esc. subst k2.
        rewrite get_set_same, Hsc.
        cbn [andb] in H1.
        destruct p as [|k3 p]; [discriminate H1|]. cbn [json_path].
        cbn [is_prefix] in H1.
        destruct (String.eqb k3 "spark.sql.warehouse.dir") eqn:Ewd.
        { apply String.eqb_eq in Ewd. subst k3. destruct p; cbn in H1; discriminate H1. }
        apply String.eqb_neq in Ewd. now rewrite get_set_other.
      * apply String.eqb_neq in Esc. now rewrite get_set_other.
    + apply String.eqb_neq in Enc. now rewrite get_set_other.
Qed.

End Built.

Lemma json_path_warehouse_dir t v :
  json_path WAREHOUSE_DIR t = Some v ->
  exists d nc sc,
    t = JDict d /\ Dict.get "new_cluster" d = Some (JDict nc)
    /\ Dict.get "spark_conf" nc = Some (JDict sc)
    /\ Dict.get "spark.sql.warehouse.dir" sc = Some v.
Proof.
  unfold WAREHOUSE_DIR. cbn [json_path]. intros H.
  destruct t as [| | | | | |d]; try discriminate H.
  destruct (Dict.get "new_cluster" d) as [[| | | | | |nc]|] eqn:E1; try discriminate H.
  destruct (Dict.get "spark_conf" nc) as [[| | | | | |sc]|] eqn:E2; try discriminate H.
  destruct (Dict.get "spark.sql.warehouse.dir" sc) as [v'|] eqn:E3; try discriminate H.
  injection H as ->. exists d, nc, sc. auto.
Qed.

End PathFacts.


Module BuilderTheorems.
Import DictFacts BuilderFacts FormatFacts PathFacts StrFacts.

Lemma construct_job_config_eq fn name dtap egg python_file w :
  __construct_job_config fn name dtap egg python_file w =
  match Dict.get fn (w_files w) with
  | Some t => (construct t name dtap egg python_file, w)
  | None => (Raise (FileNotFoundError fn), w)
  end.
Proof.
  unfold __construct_job_config, bind, __read_job_config, lift.
  now destruct (Dict.get fn (w_files w)).
Qed.

End BuilderTheorems.
Import DictFacts BuilderFacts FormatFacts PathFacts StrFacts BuilderTheorems.

(** C4: the first end-to-end scenario, for every package and entry-point
    path: the built config has warehouse directory [/mnt/prd], name
    [app-1.0.0], the one library entry of the package, and no [schedule] key.
    In general a warehouse directory that ends in the placeholder [{dtap}]
    gets the lowercased tier name in its place: [DEV] gives [dev] and [PRD]
    gives [prd]. *)
Theorem construct_job_config_scenario :
  (forall fn egg python_file w,
      Dict.get fn (w_files w) = Some scenario_template ->
      exists cfg,
        __construct_job_config fn "app-1.0.0" "PRD" egg python_file w = (Ret cfg, w)
        /\ json_path WAREHOUSE_DIR cfg = Some (JStr "/mnt/prd")
        /\ json_path ["name"] cfg = Some (JStr "app-1.0.0")
        /\ json_path ["libraries"] cfg = Some (JList [JDict [("egg", JStr egg)]])
        /\ in_keys "schedule" cfg = Ret false)
  /\ (forall t prefix name dtap egg python_file cfg,
         Format.brace_free prefix = true ->
         json_path WAREHOUSE_DIR t = Some (JStr (prefix ++ "{dtap}")) ->
         construct t name dtap egg python_file = Ret cfg ->
         json_path WAREHOUSE_DIR cfg = Some (JStr (prefix ++ Str.lower dtap)))
  /\ Str.lower "DEV" = "dev" /\ Str.lower "PRD" = "prd".
Proof.
  split; [|split; [|split; reflexivity]].
  - intros fn egg python_file w Hf. rewrite construct_job_config_eq, Hf.
    eexists. split; [reflexivity|]. repeat split.
  - intros t prefix name dtap egg python_file cfg Hp Ht Hc.
    destruct (construct_inv _ _ _ _ _ _ Hc)
      as (d & nc & sc & wd & wd' & spt & libs & -> & Hnc & Hsc & Hwd & Hf & Hspt & Hl & ->).
    unfold WAREHOUSE_DIR in Ht. cbn [json_path] in Ht.
    rewrite Hnc, Hsc, Hwd in Ht. injection Ht as ->.
    unfold Format.format in Hf. rewrite (run_text_placeholder _ _ Hp) in Hf.
    injection Hf as <-. apply built_warehouse_dir.
Qed.

Lemma construct_job_config_scenario_witness :
  Format.brace_free "/mnt/" = true
  /\ json_path WAREHOUSE_DIR scenario_template = Some (JStr ("/mnt/" ++ "{dtap}"))
  /\ exists cfg,
       construct scenario_template "app-SNAPSHOT" "DEV" "app.egg" "main.py" = Ret cfg
       /\ json_path WAREHOUSE_DIR cfg = Some (JStr ("/mnt/" ++ Str.lower "DEV")).
Proof.
  split; [reflexivity|]. split; [reflexivity|].
  eexists. split; [reflexivity|].
  apply (proj1 (proj2 construct_job_config_scenario)
           scenario_template "/mnt/" "app-SNAPSHOT" "DEV" "app.egg" "main.py" _
           eq_refl eq_refl eq_refl).
Defined.

(** C8, as stated, fails: a warehouse directory without the placeholder is
    no error; the builder returns a config. *)
Lemma construct_without_placeholder :
  json_path WAREHOUSE_DIR fixed_template = Some (JStr "/mnt/warehouse")
  /\ Format.brace_free "/mnt/warehouse" = true
  /\ exists cfg,
       construct fixed_template "app-1.0.0" "PRD" "app-1.0.0.egg" "app-main-1.0.0.py"
       = Ret cfg.
Proof. split; [reflexivity|]. split; [reflexivity|]. eexists. reflexivity. Qed.

(** C8 (amended): the builder raises ([KeyError] or [TypeError]) whenever the
    warehouse-directory field is absent from the template. When the field is
    a string without braces, and so without the placeholder, the
    interpolation leaves it as it is and the builder does not fail on it: it
    returns a config when the entry-point mapping and the library list are
    there. *)
Theorem construct_warehouse_dir_absent_or_fixed
        (t : json) (name dtap egg python_file : string) :
  (json_path WAREHOUSE_DIR t = None ->
   exists e, construct t name dtap egg python_file = Raise e
             /\ (e = TypeError \/ exists k, e = KeyError k))
  /\ (forall s spt libs,
         json_path WAREHOUSE_DIR t = Some (JStr s) ->
         Format.brace_free s = true ->
         json_path ["spark_python_task"] t = Some (JDict spt) ->
         json_path ["libraries"] t = Some (JList libs) ->
         exists cfg, construct t name dtap egg python_file = Ret cfg
                     /\ json_path WAREHOUSE_DIR cfg = Some (JStr s)).
Proof.
  split.
  - unfold WAREHOUSE_DIR, construct. cbn [json_path]. intros H.
    destruct t as [| | | | | |d]; try (eexists; split; [reflexivity | auto]).
    cbn [getitem res_bind].
    destruct (Dict.get "new_cluster" d) as [v|];
      [|eexists; split; [reflexivity | eauto]].
    cbn [res_bind].
    destruct v as [| | | | | |nc]; try (eexists; split; [reflexivity | auto]).
    cbn [getitem res_bind].
    destruct (Dict.get "spark_conf" nc) as [v|];
      [|eexists; split; [reflexivity | eauto]].
    cbn [res_bind].
    destruct v as [| | | | | |sc]; try (eexists; split; [reflexivity | auto]).
    cbn [getitem res_bind].
    destruct (Dict.get "spark.sql.warehouse.dir" sc) as [v|]; [discriminate H|].
    eexists; split; [reflexivity | eauto].
  - intros s spt libs Hwd Hs Hspt Hl.
    destruct (json_path_warehouse_dir _ _ Hwd) as (d & nc & sc & -> & Hnc & Hsc & Hw).
    cbn [json_path] in Hspt, Hl.
    destruct (Dict.get "spark_python_task" d) as [v1|] eqn:E1; [|discriminate Hspt].
    injection Hspt as ->.
    destruct (Dict.get "libraries" d) as [v2|] eqn:E2; [|discriminate Hl].
    injection Hl as ->.
    exists (built d nc sc spt libs s name egg python_file). split.
    + apply construct_ok with (wd := s); try assumption.
      apply run_text_brace_free. assumption.
    + now apply built_warehouse_dir.
Qed.

Lemma construct_warehouse_dir_absent_or_fixed_witness :
  json_path WAREHOUSE_DIR (JDict [("new_cluster", JDict [])]) = None
  /\ exists e, construct (JDict [("new_cluster", JDict [])])
                         "app-1.0.0" "PRD" "app.egg" "main.py" = Raise e
               /\ (e = TypeError \/ exists k, e = KeyError k).
Proof.
  split; [reflexivity|].
  apply (proj1 (construct_warehouse_dir_absent_or_fixed
                  (JDict [("new_cluster", JDict [])])
                  "app-1.0.0" "PRD" "app.egg" "main.py")).
  reflexivity.
Defined.

(** C9: when the builder returns a config for the template loaded from the
    file, every path that does not meet the warehouse directory, the name,
    the entry-point path or the library list leads to the same value as in
    the template; the library list is the template's with the package entry
    appended; the name and the entry-point path are the ones given; and the
    world is left as it was. *)
Theorem construct_job_config_frame
        (fn name dtap egg python_file : string) (w w' : World) (t cfg : json) :
  Dict.get fn (w_files w) = Some t ->
  __construct_job_config fn name dtap egg python_file w = (Ret cfg, w') ->
  w' = w
  /\ (forall p, (forall m, In m written_paths -> apart p m = true) ->
                json_path p cfg = json_path p t)
  /\ (exists libs,
         json_path ["libraries"] t = Some (JList libs)
         /\ json_path ["libraries"] cfg
            = Some (JList (libs ++ [JDict [("egg", JStr egg)]])))
  /\ json_path ["name"] cfg = Some (JStr name)
  /\ json_path ["spark_python_task"; "python_file"] cfg = Some (JStr python_file)
  /\ (exists wd wd',
         json_path WAREHOUSE_DIR t = Some (JStr wd)
         /\ Format.format wd (Str.lower dtap) = Ret wd'
         /\ json_path WAREHOUSE_DIR cfg = Some (JStr wd')).
Proof.
  intros Hf H. rewrite construct_job_config_eq, Hf in H.
  injection H as Hc <-. split; [reflexivity|].
  destruct (construct_inv _ _ _ _ _ _ Hc)
    as (d & nc & sc & wd & wd' & spt & libs & -> & Hnc & Hsc & Hwd & Hfm & Hspt & Hl & ->).
  split; [intros p Hp; now apply built_frame|].
  split.
  { exists libs. split; [cbn [json_path]; now rewrite Hl | apply built_libraries]. }
  split; [apply built_name|]. split; [apply built_python_file|].
  exists wd, wd'. split; [|split; [assumption | apply built_warehouse_dir]].
  unfold WAREHOUSE_DIR. cbn [json_path]. now rewrite Hnc, Hsc, Hwd.
Qed.

(** The builder never changes the world, whether it returns or raises. *)
Lemma construct_job_config_pure fn name dtap egg python_file w :
  snd (__construct_job_config fn name dtap egg python_file w) = w.
Proof.
  rewrite construct_job_config_eq. now destruct (Dict.get fn (w_files w)).
Qed.


Module WorldFacts.

Lemma with_call_add c w : with_call c w = add_calls [c] w.
Proof. reflexivity. Qed.

Lemma add_calls_add a b w : add_calls b (add_calls a w) = add_calls (a ++ b)%list w.
Proof. unfold add_calls. simpl. now rewrite <- app_assoc. Qed.

Lemma for_each_cancel_run client ids : forall w,
  for_each (cancel_run client) ids w = (Ret tt, add_calls (map CancelRun ids) w).
Proof.
  induction ids as [|id ids IH]; intros w; simpl.
  - unfold ret, add_calls. rewrite app_nil_r. now destruct w.
  - unfold bind, cancel_run. rewrite IH, with_call_add, add_calls_add. reflexivity.
Qed.

Lemma kill_it_with_fire_eq client job_id w :
  __kill_it_with_fire client job_id w =
  (Ret tt,
   add_calls (ListRuns job_id true None None None :: map CancelRun (first_page w job_id)) w).
Proof.
  unfold __kill_it_with_fire, bind, list_runs, first_page.
  cbn [w_runs with_call].
  destruct (w_runs w job_id) as [ids|].
  - rewrite for_each_cancel_run, with_call_add, add_calls_add. reflexivity.
  - unfold ret. now rewrite with_call_add.
Qed.

(** What [__remove_job] does, by what the matcher returns. *)
Lemma remove_job_eq client A is_streaming w :
  __remove_job client A is_streaming w =
  match __application_job_id A (job_configs (w_jobs w)) with
  | Raise e => (Raise e, add_calls [ListJobs] w)
  | Ret None => (Ret tt, add_calls [ListJobs] w)
  | Ret (Some id) =>
      if Z.eqb id 0 then (Ret tt, add_calls [ListJobs] w)
      else
        (Ret tt,
         with_jobs (filter (fun j => negb (Z.eqb (rj_job_id j) id)) (w_jobs w))
                   (w_next_job_id w)
                   (add_calls
                      (ListJobs ::
                       (if is_streaming
                        then ListRuns id true None None None
                             :: map CancelRun (first_page w id)
                        else []) ++ [DeleteJob id])%list
                      w))
  end.
Proof.
  unfold __remove_job, bind, list_jobs, lift. fold (job_configs (w_jobs w)).
  rewrite with_call_add.
  destruct (__application_job_id A (job_configs (w_jobs w))) as [[id|]|e];
    [|reflexivity|reflexivity].
  cbn [truthy]. destruct (Z.eqb id 0); cbn [negb]; [reflexivity|].
  destruct is_streaming.
  - rewrite kill_it_with_fire_eq, add_calls_add. unfold delete_job.
    rewrite with_call_add, add_calls_add. cbn [app].
    unfold first_page. cbn [w_runs add_calls w_jobs w_next_job_id].
    reflexivity.
  - unfold ret, delete_job. rewrite with_call_add, add_calls_add. reflexivity.
Qed.

Lemma submit_job_eq client job_config is_streaming w :
  __submit_job client job_config is_streaming w =
  (Ret tt,
   with_jobs (w_jobs w ++ [mkRemoteJob (w_next_job_id w) (settings_name job_config)])%list
             (w_next_job_id w + 1)%Z
             (add_calls
                (CreateJob job_config ::
                 if is_streaming then [RunNow (w_next_job_id w) None None None None]
                 else [])
                w)).
Proof.
  unfold __submit_job, bind, create_job. rewrite with_call_add.
  destruct is_streaming.
  - unfold run_now. rewrite with_call_add. unfold with_jobs, add_calls. simpl.
    now rewrite <- app_assoc.
  - reflexivity.
Qed.

End WorldFacts.


Import Re ReSem StrFacts ReFacts CompileFacts MatchFacts MatcherFacts.
Import DictFacts BuilderFacts FormatFacts PathFacts BuilderTheorems WorldFacts.

(** C3: when the matcher finds a job whose id passes [if job_id:], a
    streaming removal lists the active runs of the job, cancels every run id
    of the page it gets, in order, and then deletes the job; a batch removal
    deletes the job and neither lists nor cancels runs. *)
Theorem remove_job_found
        (client : ApiClient) (A : string) (is_streaming : bool) (w : World) (id : Z) :
  __application_job_id A (job_configs (w_jobs w)) = Ret (Some id) ->
  id <> 0%Z ->
  fst (__remove_job client A is_streaming w) = Ret tt
  /\ w_calls (snd (__remove_job client A is_streaming w)) =
     (w_calls w ++
      if is_streaming
      then ListJobs :: ListRuns id true None None None
                    :: map CancelRun (first_page w id) ++ [DeleteJob id]
      else [ListJobs; DeleteJob id])%list.
Proof.
  intros H Hid. rewrite remove_job_eq, H.
  apply Z.eqb_neq in Hid. rewrite Hid. cbn [fst snd].
  split; [reflexivity|]. now destruct is_streaming.
Qed.

Lemma remove_job_found_witness :
  w_calls (snd (__remove_job example_client "app" true
                             (example_world [mkRemoteJob 7 "app-SNAPSHOT"]))) =
  [ListJobs; ListRuns 7 true None None None; CancelRun 41; CancelRun 42; DeleteJob 7].
Proof.
  exact (proj2 (remove_job_found example_client "app" true
                  (example_world [mkRemoteJob 7 "app-SNAPSHOT"]) 7
                  ltac:(vm_compute; reflexivity) ltac:(discriminate))).
Defined.

Module RemoveFacts.

Lemma find_after_rejected {A} (f : A -> bool) before x after :
  Forall (fun y => f y = false) before -> f x = true ->
  find f (before ++ x :: after) = Some x.
Proof.
  intros Hb Hx. induction Hb as [|y before Hy Hb IH]; simpl.
  - now rewrite Hx.
  - now rewrite Hy.
Qed.

(** The matcher returns the id of the first listed job it accepts. *)
Lemma application_job_id_first_accepted A before j after :
  Forall (fun j' => accepts A (rj_settings_name j') = false) before ->
  accepts A (rj_settings_name j) = true ->
  __application_job_id A (job_configs (before ++ j :: after)) = Ret (Some (rj_job_id j)).
Proof.
  unfold accepts, __application_job_id. intros Hb Hj.
  destruct (Re.compile (job_pattern A)) as [regex|]; [|discriminate Hj].
  unfold job_configs. rewrite map_app. cbn [map].
  rewrite (find_after_rejected _ (map _ before)); [reflexivity| |exact Hj].
  apply Forall_map. exact Hb.
Qed.

End RemoveFacts.
Import RemoveFacts.

(** C10, as stated, fails: the list holds a job of the application with id
    0, but another job of the application is listed before it, and
    [__remove_job] deletes that one. *)
Lemma remove_job_zero_listed_second :
  In (mkRemoteJob 0 "app-2.0.0") zero_second
  /\ accepts "app" "app-2.0.0" = true
  /\ w_calls (snd (__remove_job example_client "app" false (example_world zero_second)))
     = [ListJobs; DeleteJob 5]
  /\ w_calls (snd (__remove_job example_client "app" true (example_world zero_second)))
     = [ListJobs; ListRuns 5 true None None None; DeleteJob 5].
Proof.
  split; [right; left; reflexivity|].
  repeat split; vm_compute; reflexivity.
Qed.

(** C10 (amended): when the first listed job the matcher accepts has id 0,
    [__remove_job] only lists the jobs: no run is listed or cancelled, no job
    is deleted and the job list is left as it is, also when jobs of the
    application with other ids follow. This is what it does when no job
    matches. *)
Theorem remove_job_id_zero
        (client : ApiClient) (A : string) (is_streaming : bool) (w : World)
        (before after : list RemoteJob) (j : RemoteJob) :
  w_jobs w = (before ++ j :: after)%list ->
  Forall (fun j' => accepts A (rj_settings_name j') = false) before ->
  accepts A (rj_settings_name j) = true ->
  rj_job_id j = 0%Z ->
  __remove_job client A is_streaming w = (Ret tt, add_calls [ListJobs] w)
  /\ (forall w0,
         __application_job_id A (job_configs (w_jobs w0)) = Ret None ->
         __remove_job client A is_streaming w0 = (Ret tt, add_calls [ListJobs] w0)).
Proof.
  intros Hw Hb Hj Hz. split.
  - rewrite remove_job_eq, Hw, (application_job_id_first_accepted A before j after Hb Hj).
    now rewrite Hz.
  - intros w0 H0. now rewrite remove_job_eq, H0.
Qed.

Lemma remove_job_id_zero_witness :
  __remove_job example_client "app" true (example_world zero_first)
  = (Ret tt, add_calls [ListJobs] (example_world zero_first)).
Proof.
  exact (proj1 (remove_job_id_zero example_client "app" true (example_world zero_first)
                  [] [mkRemoteJob 5 "app-2.0.0"] (mkRemoteJob 0 "app-1.0.0")
                  eq_refl (Forall_nil _) ltac:(vm_compute; reflexivity) eq_refl)).
Defined.

(** C7: [__submit_job] returns after exactly one create-job call with the
    config, followed, for a streaming job only, by exactly one run-now call
    on the id the create call returned, all four parameter arguments [None]. *)
Theorem submit_job_calls
        (client : ApiClient) (job_config : json) (is_streaming : bool) (w : World) :
  fst (__submit_job client job_config is_streaming w) = Ret tt
  /\ fst (create_job client job_config w) = Ret (w_next_job_id w)
  /\ w_calls (snd (__submit_job client job_config is_streaming w)) =
     (w_calls w ++
      CreateJob job_config ::
      if is_streaming then [RunNow (w_next_job_id w) None None None None] else [])%list.
Proof. rewrite submit_job_eq. repeat split. Qed.

(** C5: with the branch name in the environment, [main] deploys the tag of
    the current commit (the first in the order of [repo.tags]) to [PRD] when
    there is one; else deploys [SNAPSHOT] to [DEV] when the branch is
    [master]; else returns normally after printing a message that contains
    the branch name, with no other effect. *)
Theorem main_classifies (w : World) (repo : Repo) (branch : string) :
  w_repo w = Some repo ->
  assoc "BUILD_SOURCEBRANCHNAME" (w_environ w) = Some branch ->
  ((exists t, In t (tags repo) /\ snd t = head_commit repo) ->
   exists tag, In tag (tags repo) /\ snd tag = head_commit repo
               /\ main w = deploy_application (fst tag) "PRD" w)
  /\ ((forall t, In t (tags repo) -> snd t <> head_commit repo) ->
      branch = "master" ->
      main w = deploy_application "SNAPSHOT" "DEV" w)
  /\ ((forall t, In t (tags repo) -> snd t <> head_commit repo) ->
      branch <> "master" ->
      main w = (Ret tt, with_stdout (fun out => out ++ [Print (not_deploying branch)])%list w)
      /\ exists before after, not_deploying branch = before ++ branch ++ after).
Proof.
  intros Hr Hb.
  assert (Hmain : main w =
    match find (fun t => String.eqb (snd t) (head_commit repo)) (tags repo) with
    | Some t => deploy_application (fst t) "PRD" w
    | None => if String.eqb branch "master" then deploy_application "SNAPSHOT" "DEV" w
              else print (not_deploying branch) w
    end).
  { unfold main. rewrite Hr. unfold bind, environ. cbv beta zeta. rewrite Hb.
    cbv beta iota. destruct (find _ (tags repo)); [reflexivity|].
    now destruct (String.eqb branch "master"). }
  assert (Hnone : (forall t, In t (tags repo) -> snd t <> head_commit repo) ->
                  find (fun t => String.eqb (snd t) (head_commit repo)) (tags repo) = None).
  { intros Hn. destruct (find _ (tags repo)) as [t|] eqn:E; [|reflexivity].
    apply find_some in E as [Hin He]. apply String.eqb_eq in He.
    now destruct (Hn t Hin). }
  split; [|split].
  - intros (t & Hin & Ht).
    destruct (find (fun t => String.eqb (snd t) (head_commit repo)) (tags repo))
      as [tag|] eqn:E.
    + apply find_some in E as [Hin' He]. apply String.eqb_eq in He. eauto.
    + exfalso. apply (find_none _ _ E) in Hin. rewrite Ht, String.eqb_refl in Hin.
      discriminate.
  - intros Hn ->. now rewrite Hmain, (Hnone Hn).
  - intros Hn Hne. rewrite Hmain, (Hnone Hn).
    apply String.eqb_neq in Hne. rewrite Hne. split; [reflexivity|].
    unfold not_deploying. eexists. exists (DQUOTE ++ ". Not deploying").
    rewrite <- !append_assoc. reflexivity.
Qed.

Lemma main_classifies_witness :
  main feature_world
  = (Ret tt, with_stdout (fun out => out ++ [Print (not_deploying "feature/x")])%list
                         feature_world).
Proof.
  exact (proj1 (proj2 (proj2 (main_classifies feature_world
                                (mkRepo [("1.0.0", "0a1b2c")] "4f2a9c") "feature/x"
                                eq_refl eq_refl))
                      ltac:(intros t [<-|[]]; discriminate)
                      ltac:(discriminate))).
Defined.


Import Re ReSem StrFacts ReFacts CompileFacts MatchFacts MatcherFacts.
Import DictFacts BuilderFacts FormatFacts PathFacts BuilderTheorems WorldFacts.

Module DeployFacts.

Lemma construct_dict t name dtap egg python_file cfg :
  construct t name dtap egg python_file = Ret cfg -> exists d, cfg = JDict d.
Proof.
  intros H. destruct (construct_inv _ _ _ _ _ _ H)
    as (d & nc & sc & wd & wd' & spt & libs & _ & _ & _ & _ & _ & _ & _ & ->).
  unfold built. eauto.
Qed.

Lemma deploy_application_after_build version dtap w A cfg tk h :
  assoc "BUILD_DEFINITIONNAME" (w_environ w) = Some A ->
  __construct_job_config JOB_CFG (job_name A version) dtap (egg_path A version)
                         (python_file_path A version) w = (Ret cfg, w) ->
  assoc ("AZURE_DATABRICKS_TOKEN_" ++ dtap) (w_environ w) = Some tk ->
  assoc ("AZURE_DATABRICKS_HOST_" ++ dtap) (w_environ w) = Some h ->
  exists d,
    cfg = JDict d /\
    deploy_application version dtap w =
    (print "Removing old job" ;;
     __remove_job (mkApiClient h tk) A (Dict.has "schedule" d) ;;
     print "Submitting new job with configuration:" ;;
     pprint cfg ;;
     __submit_job (mkApiClient h tk) cfg (Dict.has "schedule" d))
      (with_stdout (fun out => out ++ [Print "Creating databricks client"])%list w).
Proof.
  intros HA Hc Htk Hh.
  assert (Hd : exists d, cfg = JDict d).
  { rewrite construct_job_config_eq in Hc.
    destruct (Dict.get JOB_CFG (w_files w)); [|discriminate Hc].
    injection Hc as Hc. eapply construct_dict; eassumption. }
  destruct Hd as (d & ->). exists d. split; [reflexivity|].
  unfold deploy_application.
  unfold bind at 1. unfold environ at 1. rewrite HA.
  unfold bind at 1. fold (job_name A version) (egg_path A version)
                         (python_file_path A version).
  rewrite Hc.
  unfold bind at 1. unfold print at 1.
  unfold bind at 1. unfold environ at 1. cbn [w_environ with_stdout]. rewrite Htk.
  unfold bind at 1. unfold environ at 1. cbn [w_environ with_stdout]. rewrite Hh.
  unfold bind at 1. unfold lift at 1. cbn [in_keys].
  reflexivity.
Qed.

End DeployFacts.
Import DeployFacts.

(** C6: once the config is built, [deploy_application] removes the old job
    and submits the new one with one and the same flag [is_streaming], which
    is true exactly when the config has a [schedule] key, whatever its value,
    and false exactly when it has none. *)
Theorem deploy_application_is_streaming
        (version dtap : string) (w : World) (A : string) (cfg : json) (tk h : string) :
  assoc "BUILD_DEFINITIONNAME" (w_environ w) = Some A ->
  __construct_job_config JOB_CFG (job_name A version) dtap (egg_path A version)
                         (python_file_path A version) w = (Ret cfg, w) ->
  assoc ("AZURE_DATABRICKS_TOKEN_" ++ dtap) (w_environ w) = Some tk ->
  assoc ("AZURE_DATABRICKS_HOST_" ++ dtap) (w_environ w) = Some h ->
  exists is_streaming : bool,
    deploy_application version dtap w =
    (print "Removing old job" ;;
     __remove_job (mkApiClient h tk) A is_streaming ;;
     print "Submitting new job with configuration:" ;;
     pprint cfg ;;
     __submit_job (mkApiClient h tk) cfg is_streaming)
      (with_stdout (fun out => out ++ [Print "Creating databricks client"])%list w)
    /\ (is_streaming = true <-> exists v, json_path ["schedule"] cfg = Some v)
    /\ (is_streaming = false <-> json_path ["schedule"] cfg = None).
Proof.
  intros HA Hc Htk Hh.
  destruct (deploy_application_after_build _ _ _ _ _ _ _ HA Hc Htk Hh) as (d & -> & E).
  exists (Dict.has "schedule" d). split; [exact E|].
  unfold Dict.has. cbn [json_path].
  destruct (Dict.get "schedule" d) as [v|]; split; split; intros H;
    try discriminate; try reflexivity; eauto.
  destruct H as (v' & H). discriminate.
Qed.


Import Re ReSem StrFacts ReFacts CompileFacts MatchFacts MatcherFacts.
Import DictFacts BuilderFacts FormatFacts PathFacts BuilderTheorems WorldFacts DeployFacts.

Module CountFacts.

Lemma plain_dotted A : plain A = true -> dotted A = true.
Proof.
  unfold plain, dotted. induction A as [|c A IH]; simpl; [reflexivity|].
  intros H. apply andb_prop in H as [Hc HA]. now rewrite Hc, IH.
Qed.

Lemma name_matches_iff A n :
  plain A = true -> (name_matches A n = true <-> names_application A n).
Proof.
  intros HA. unfold name_matches.
  rewrite (compile_job_pattern A (plain_dotted A HA)). split.
  - destruct (search _ n) as [g|] eqn:E; [|discriminate].
    intros _. exact (search_plain A n g HA E).
  - intros (V & nl & HV & Hnl & ->).
    now destruct (search_job_regex_named A V nl HV Hnl) as (g & -> & _).
Qed.

Lemma has_match_name_matches A n :
  plain A = true ->
  has_match (job_regex (map cls_of (Str.chars A))) A n = name_matches A n.
Proof.
  intros HA.
  destruct (has_match _ A n) eqn:E1, (name_matches A n) eqn:E2; try reflexivity.
  - apply has_match_iff, (name_matches_iff A n HA) in E1. congruence.
  - apply (name_matches_iff A n HA), has_match_iff in E2. congruence.
Qed.

Lemma find_map {A B} (f : A -> B) (p : B -> bool) l :
  find p (map f l) = option_map f (find (fun x => p (f x)) l).
Proof.
  induction l as [|x l IH]; simpl; [reflexivity|].
  destruct (p (f x)); [reflexivity | exact IH].
Qed.

Lemma find_pointwise {A} (p q : A -> bool) l :
  (forall x, p x = q x) -> find p l = find q l.
Proof.
  intros H. induction l as [|x l IH]; simpl; [reflexivity|].
  now rewrite H, IH.
Qed.

(** For a name without special characters the matcher returns the id of the
    first listed job whose name matches the pattern. *)
Lemma application_job_id_plain A jobs :
  plain A = true ->
  __application_job_id A (job_configs jobs) =
  Ret (option_map rj_job_id
         (find (fun j => name_matches A (rj_settings_name j)) jobs)).
Proof.
  intros HA. unfold __application_job_id, job_configs.
  rewrite (compile_job_pattern A (plain_dotted A HA)), find_map.
  cbn [name job_id]. f_equal.
  rewrite (find_pointwise _ (fun j => name_matches A (rj_settings_name j)))
    by (intros j; apply has_match_name_matches; assumption).
  now destruct (find _ jobs).
Qed.

Lemma filter_filter_nil {A} (p q : A -> bool) l :
  filter p l = [] -> filter p (filter q l) = [].
Proof.
  induction l as [|x l IH]; simpl; [reflexivity|].
  destruct (p x) eqn:E; [discriminate|]. intros H.
  destruct (q x); simpl; [rewrite E|]; auto.
Qed.

Lemma find_none_filter {A} (p : A -> bool) l :
  find p l = None -> filter p l = [].
Proof.
  induction l as [|x l IH]; simpl; [reflexivity|].
  destruct (p x); [discriminate | exact IH].
Qed.

(** Where at most one element satisfies [p], removing everything that shares
    the key of the first such element leaves none. *)
Lemma filter_after_removal {A} (p : A -> bool) (key : A -> Z) l x :
  List.length (filter p l) <= 1 ->
  find p l = Some x ->
  filter p (filter (fun y => negb (Z.eqb (key y) (key x))) l) = [].
Proof.
  induction l as [|y l IH]; simpl; [discriminate|].
  destruct (p y) eqn:E.
  - intros Hlen [= ->]. simpl in Hlen. rewrite Z.eqb_refl. simpl.
    apply filter_filter_nil. destruct (filter p l); [reflexivity | simpl in Hlen; lia].
  - intros Hlen Hf. destruct (negb (Z.eqb (key y) (key x))); simpl; [rewrite E|]; auto.
Qed.

Lemma count_matching_app A l1 l2 :
  count_matching A (l1 ++ l2) = count_matching A l1 + count_matching A l2.
Proof. unfold count_matching. now rewrite filter_app, length_app. Qed.

(** After the removal no listed job matches the pattern, when at most one
    did and its id is not 0. *)
Lemma jobs_after_remove_none A jobs :
  plain A = true ->
  count_matching A jobs <= 1 ->
  (forall j, In j jobs -> name_matches A (rj_settings_name j) = true ->
             rj_job_id j <> 0%Z) ->
  count_matching A (jobs_after_remove A jobs) = 0.
Proof.
  intros HA Hc Hz. unfold jobs_after_remove.
  rewrite (application_job_id_plain A jobs HA).
  destruct (find _ jobs) as [j|] eqn:E; cbn [option_map].
  - destruct (find_some _ _ E) as [Hin Hm].
    apply Hz in Hm; [|assumption]. apply Z.eqb_neq in Hm. rewrite Hm.
    unfold count_matching in *.
    now rewrite (filter_after_removal _ rj_job_id jobs j Hc E).
  - unfold count_matching. now rewrite (find_none_filter _ _ E).
Qed.

(** The jobs after a deployment that ran to its end: those left by the
    removal, and the new one. *)
Lemma deploy_application_jobs version dtap w w' A :
  assoc "BUILD_DEFINITIONNAME" (w_environ w) = Some A ->
  deploy_application version dtap w = (Ret tt, w') ->
  exists cfg,
    w_jobs w' =
    (jobs_after_remove A (w_jobs w)
     ++ [mkRemoteJob (w_next_job_id w) (settings_name cfg)])%list.
Proof.
  intros HA H.
  destruct (__construct_job_config JOB_CFG (job_name A version) dtap (egg_path A version)
              (python_file_path A version) w) as [[cfg|e] w1] eqn:Ec.
  2:{ unfold deploy_application in H. unfold bind at 1 in H. unfold environ at 1 in H.
      rewrite HA in H. unfold bind at 1 in H.
      fold (job_name A version) (egg_path A version) (python_file_path A version) in H.
      rewrite Ec in H. discriminate H. }
  assert (w1 = w) by (now rewrite <- (construct_job_config_pure JOB_CFG (job_name A version)
                                      dtap (egg_path A version)
                                      (python_file_path A version) w), Ec).
  subst w1.
  destruct (assoc ("AZURE_DATABRICKS_TOKEN_" ++ dtap) (w_environ w)) as [tk|] eqn:Etk.
  2:{ unfold deploy_application in H. unfold bind at 1 in H. unfold environ at 1 in H.
      rewrite HA in H. unfold bind at 1 in H.
      fold (job_name A version) (egg_path A version) (python_file_path A version) in H.
      rewrite Ec in H. unfold bind at 1 in H. unfold print at 1 in H.
      unfold bind at 1 in H. unfold environ at 1 in H.
      cbn [w_environ with_stdout] in H. rewrite Etk in H. discriminate H. }
  destruct (assoc ("AZURE_DATABRICKS_HOST_" ++ dtap) (w_environ w)) as [h|] eqn:Eh.
  2:{ unfold deploy_application in H. unfold bind at 1 in H. unfold environ at 1 in H.
      rewrite HA in H. unfold bind at 1 in H.
      fold (job_name A version) (egg_path A version) (python_file_path A version) in H.
      rewrite Ec in H. unfold bind at 1 in H. unfold print at 1 in H.
      unfold bind at 1 in H. unfold environ at 1 in H.
      cbn [w_environ with_stdout] in H. rewrite Etk in H.
      unfold bind at 1 in H. unfold environ at 1 in H.
      cbn [w_environ with_stdout] in H. rewrite Eh in H. discriminate H. }
  destruct (deploy_application_after_build _ _ _ _ _ _ _ HA Ec Etk Eh) as (d & -> & E).
  rewrite E in H. clear E. exists (JDict d).
  unfold bind at 1 in H. unfold print at 1 in H.
  unfold bind at 1 in H. rewrite remove_job_eq in H.
  cbn [w_jobs with_stdout] in H. unfold jobs_after_remove.
  destruct (__application_job_id A (job_configs (w_jobs w))) as [[id|]|e];
    [destruct (Z.eqb id 0)| |discriminate H];
    unfold bind at 1 in H; unfold print at 1 in H;
    unfold bind at 1 in H; unfold pprint at 1 in H;
    rewrite submit_job_eq in H; injection H as <-; reflexivity.
Qed.

End CountFacts.
Import CountFacts.

(** C2, as stated, fails: from a job list with two jobs of the application
    the deployment runs to its end and leaves two jobs that match the
    pattern, since only the first match is removed. *)
Lemma deploy_application_leaves_two :
  count_matching "app" (w_jobs (example_world two_deployed)) = 2
  /\ fst (deploy_application "1.0.1" "PRD" (example_world two_deployed)) = Ret tt
  /\ ~ count_matching "app"
         (w_jobs (snd (deploy_application "1.0.1" "PRD" (example_world two_deployed))))
       <= 1.
Proof.
  split; [vm_compute; reflexivity|]. split; [vm_compute; reflexivity|].
  assert (E : count_matching "app"
                (w_jobs (snd (deploy_application "1.0.1" "PRD"
                                (example_world two_deployed)))) = 2)
    by (vm_compute; reflexivity).
  rewrite E. lia.
Qed.

(** C2 (amended): for an application name without characters that have a
    meaning in a regular expression, when at most one listed job matches the
    job pattern and no matching job has id 0, then after a deployment that
    ran to its end at most one listed job matches the pattern. *)
Theorem deploy_application_at_most_one
        (version dtap : string) (w w' : World) (A : string) :
  plain A = true ->
  assoc "BUILD_DEFINITIONNAME" (w_environ w) = Some A ->
  count_matching A (w_jobs w) <= 1 ->
  (forall j, In j (w_jobs w) -> name_matches A (rj_settings_name j) = true ->
             rj_job_id j <> 0%Z) ->
  deploy_application version dtap w = (Ret tt, w') ->
  count_matching A (w_jobs w') <= 1.
Proof.
  intros HA HE Hc Hz H.
  destruct (deploy_application_jobs _ _ _ _ _ HE H) as (cfg & ->).
  rewrite count_matching_app, (jobs_after_remove_none A _ HA Hc Hz).
  unfold count_matching. simpl. destruct (name_matches A _); simpl; lia.
Qed.

Lemma deploy_application_at_most_one_witness :
  count_matching "app"
    (w_jobs (snd (deploy_application "1.0.1" "PRD" (example_world one_deployed)))) <= 1.
Proof.
  apply (deploy_application_at_most_one "1.0.1" "PRD" (example_world one_deployed)
           (snd (deploy_application "1.0.1" "PRD" (example_world one_deployed))) "app").
  - reflexivity.
  - reflexivity.
  - vm_compute. lia.
  - intros j [<-|[<-|[]]]; vm_compute; discriminate.
  - vm_compute. reflexivity.
Defined.

Lemma deploy_application_is_streaming_witness :
  exists is_streaming : bool,
    deploy_application "1.0.1" "PRD" (example_world one_deployed) =
    (print "Removing old job" ;;
     __remove_job example_client "app" is_streaming ;;
     print "Submitting new job with configuration:" ;;
     pprint example_config ;;
     __submit_job example_client example_config is_streaming)
      (with_stdout (fun out => out ++ [Print "Creating databricks client"])%list
                   (example_world one_deployed))
    /\ (is_streaming = true <-> exists v, json_path ["schedule"] example_config = Some v)
    /\ (is_streaming = false <-> json_path ["schedule"] example_config = None).
Proof.
  exact (deploy_application_is_streaming "1.0.1" "PRD" (example_world one_deployed)
           "app" example_config "token-prd" "https://prd.example"
           eq_refl ltac:(vm_compute; reflexivity) eq_refl eq_refl).
Defined.

Lemma construct_job_config_frame_witness :
  json_path ["name"] example_config = Some (JStr "app-1.0.1").
Proof.
  exact (proj1 (proj2 (proj2 (proj2
           (construct_job_config_frame JOB_CFG (job_name "app" "1.0.1") "PRD"
              (egg_path "app" "1.0.1") (python_file_path "app" "1.0.1")
              (example_world one_deployed) (example_world one_deployed)
              scenario_template example_config
              eq_refl ltac:(vm_compute; reflexivity)))))).
Defined.


Import Re ReSem StrFacts ReFacts CompileFacts MatchFacts MatcherFacts.
Import DictFacts BuilderFacts FormatFacts PathFacts BuilderTheorems WorldFacts DeployFacts.
Import CountFacts.

Module RunFacts.

Lemma settings_name_built d nc sc spt libs wd name egg python_file :
  settings_name (built d nc sc spt libs wd name egg python_file) = name.
Proof.
  unfold settings_name, built.
  rewrite !get_set_other by discriminate. now rewrite get_set_same.
Qed.

(** A deployment that ran to its end: the config was built, the credentials
    were there, and the world at the end is the one after printing, removing
    and submitting. *)
Lemma deploy_application_run version dtap w w' A :
  assoc "BUILD_DEFINITIONNAME" (w_environ w) = Some A ->
  deploy_application version dtap w = (Ret tt, w') ->
  exists d tk h,
    __construct_job_config JOB_CFG (job_name A version) dtap (egg_path A version)
                           (python_file_path A version) w = (Ret (JDict d), w)
    /\ assoc ("AZURE_DATABRICKS_TOKEN_" ++ dtap) (w_environ w) = Some tk
    /\ assoc ("AZURE_DATABRICKS_HOST_" ++ dtap) (w_environ w) = Some h
    /\ w_jobs w' =
       (jobs_after_remove A (w_jobs w)
        ++ [mkRemoteJob (w_next_job_id w) (settings_name (JDict d))])%list
    /\ w_calls w' =
       (w_calls w ++ ListJobs :: removal_calls A (Dict.has "schedule" d) w
          ++ CreateJob (JDict d)
             :: if Dict.has "schedule" d
                then [RunNow (w_next_job_id w) None None None None] else [])%list
    /\ w_stdout w' =
       (w_stdout w ++ [Print "Creating databricks client"; Print "Removing old job";
                       Print "Submitting new job with configuration:";
                       Pprint (JDict d)])%list.
Proof.
  intros HA H.
  destruct (__construct_job_config JOB_CFG (job_name A version) dtap (egg_path A version)
              (python_file_path A version) w) as [[cfg|e] w1] eqn:Ec.
  2:{ unfold deploy_application in H. unfold bind at 1 in H. unfold environ at 1 in H.
      rewrite HA in H. unfold bind at 1 in H.
      fold (job_name A version) (egg_path A version) (python_file_path A version) in H.
      rewrite Ec in H. discriminate H. }
  assert (w1 = w) by (now rewrite <- (construct_job_config_pure JOB_CFG (job_name A version)
                                      dtap (egg_path A version)
                                      (python_file_path A version) w), Ec).
  subst w1.
  destruct (assoc ("AZURE_DATABRICKS_TOKEN_" ++ dtap) (w_environ w)) as [tk|] eqn:Etk.
  2:{ unfold deploy_application in H. unfold bind at 1 in H. unfold environ at 1 in H.
      rewrite HA in H. unfold bind at 1 in H.
      fold (job_name A version) (egg_path A version) (python_file_path A version) in H.
      rewrite Ec in H. unfold bind at 1 in H. unfold print at 1 in H.
      unfold bind at 1 in H. unfold environ at 1 in H.
      cbn [w_environ with_stdout] in H. rewrite Etk in H. discriminate H. }
  destruct (assoc ("AZURE_DATABRICKS_HOST_" ++ dtap) (w_environ w)) as [h|] eqn:Eh.
  2:{ unfold deploy_application in H. unfold bind at 1 in H. unfold environ at 1 in H.
      rewrite HA in H. unfold bind at 1 in H.
      fold (job_name A version) (egg_path A version) (python_file_path A version) in H.
      rewrite Ec in H. unfold bind at 1 in H. unfold print at 1 in H.
      unfold bind at 1 in H. unfold environ at 1 in H.
      cbn [w_environ with_stdout] in H. rewrite Etk in H.
      unfold bind at 1 in H. unfold environ at 1 in H.
      cbn [w_environ with_stdout] in H. rewrite Eh in H. discriminate H. }
  destruct (deploy_application_after_build _ _ _ _ _ _ _ HA Ec Etk Eh) as (d & -> & E).
  rewrite E in H. clear E. exists d, tk, h.
  do 3 (split; [reflexivity|]).
  unfold bind at 1 in H. unfold print at 1 in H.
  unfold bind at 1 in H. rewrite remove_job_eq in H.
  cbn [w_jobs with_stdout] in H. unfold jobs_after_remove, removal_calls.
  destruct (__application_job_id A (job_configs (w_jobs w))) as [[id|]|e];
    [destruct (Z.eqb id 0)| |discriminate H];
    unfold bind at 1 in H; unfold print at 1 in H;
    unfold bind at 1 in H; unfold pprint at 1 in H;
    rewrite submit_job_eq in H; injection H as <-;
    (split; [reflexivity|]); cbn; rewrite <- ?app_assoc; cbn;
    (split; [|now rewrite <- ?app_assoc]);
    destruct (Dict.has "schedule" d); cbn; rewrite <- ?app_assoc; reflexivity.
Qed.

Lemma removal_calls_removal A b w : forallb is_removal_call (removal_calls A b w) = true.
Proof.
  unfold removal_calls.
  destruct (__application_job_id A (job_configs (w_jobs w))) as [[id|]|e];
    try reflexivity.
  destruct (Z.eqb id 0); [reflexivity|].
  rewrite forallb_app. destruct b; [|reflexivity].
  cbn. rewrite andb_true_r. induction (first_page w id); simpl; auto.
Qed.

Lemma names_application_job_configs A jobs :
  Forall (fun j => ~ names_application A (rj_settings_name j)) jobs ->
  Forall (fun j => ~ names_application A (name j)) (job_configs jobs).
Proof.
  intros H. unfold job_configs. apply Forall_map.
  eapply Forall_impl; [|exact H]. auto.
Qed.

End RunFacts.


Import Re ReSem StrFacts ReFacts CompileFacts MatchFacts MatcherFacts.
Import DictFacts BuilderFacts FormatFacts PathFacts BuilderTheorems WorldFacts DeployFacts.
Import CountFacts RunFacts.


(** X2: for an application name whose only special characters are dots,
    when no listed job is named after the application (name, dash, version,
    optional line feed), [__remove_job] returns normally having only listed
    the jobs: no run is listed or cancelled and no job is deleted. *)
Theorem remove_job_nothing_named
        (client : ApiClient) (A : string) (is_streaming : bool) (w : World) :
  dotted A = true ->
  Forall (fun j => ~ names_application A (rj_settings_name j)) (w_jobs w) ->
  __remove_job client A is_streaming w = (Ret tt, add_calls [ListJobs] w).
Proof.
  intros HA Hn. rewrite remove_job_eq.
  destruct (application_job_id_dotted A (job_configs (w_jobs w)) HA) as (r & -> & Hr).
  destruct r as [id|]; [|reflexivity].
  destruct Hr as (j & (before & after & E & Hj & _) & _).
  apply names_application_job_configs in Hn. rewrite Forall_forall in Hn.
  exfalso. apply (Hn j); [|assumption]. rewrite E. apply in_elt.
Qed.

Lemma remove_job_nothing_named_witness :
  __remove_job example_client "app" true
               (example_world [mkRemoteJob 5 "app2-1.0.0"; mkRemoteJob 6 "app-1.0"])
  = (Ret tt,
     add_calls [ListJobs]
               (example_world [mkRemoteJob 5 "app2-1.0.0"; mkRemoteJob 6 "app-1.0"])).
Proof.
  apply (remove_job_nothing_named example_client "app" true
           (example_world [mkRemoteJob 5 "app2-1.0.0"; mkRemoteJob 6 "app-1.0"])
           eq_refl).
  repeat constructor; intros N;
    apply (name_matches_iff "app" _ eq_refl) in N; vm_compute in N; discriminate N.
Defined.

(** X3: [__remove_job] never adds a job, whatever the application name;
    and for an application name whose only special characters are dots every
    job it removes has the id of the first listed job named after the
    application. *)
Theorem remove_job_removes_matched_id
        (client : ApiClient) (A : string) (is_streaming : bool) (w : World) :
  (forall j, In j (w_jobs (snd (__remove_job client A is_streaming w))) ->
             In j (w_jobs w))
  /\ (dotted A = true ->
      forall j, In j (w_jobs w) ->
                ~ In j (w_jobs (snd (__remove_job client A is_streaming w))) ->
                exists j0, first_named A (job_configs (w_jobs w)) j0
                           /\ rj_job_id j = job_id j0).
Proof.
  rewrite remove_job_eq. split.
  - destruct (__application_job_id A (job_configs (w_jobs w))) as [[id|]|e];
      [destruct (Z.eqb id 0)| |]; cbn [snd w_jobs add_calls with_jobs]; auto.
    intros j Hj. apply filter_In in Hj. tauto.
  - intros HA.
    destruct (application_job_id_dotted A (job_configs (w_jobs w)) HA) as (r & -> & Hr).
    destruct r as [id|]; [destruct (Z.eqb id 0)|]; cbn [snd w_jobs add_calls with_jobs].
    + intros j Hj Hn; contradiction.
    + intros j Hj Hn. destruct Hr as (j0 & Hf & Hid). exists j0. split; [assumption|].
      rewrite Hid. destruct (Z.eqb (rj_job_id j) id) eqn:E.
      * now apply Z.eqb_eq in E.
      * exfalso. apply Hn, filter_In. rewrite E. auto.
    + intros j Hj Hn; contradiction.
Qed.

Lemma remove_job_removes_matched_id_witness :
  exists j0, first_named "app" (job_configs one_deployed) j0 /\ 7%Z = job_id j0.
Proof.
  apply (proj2 (remove_job_removes_matched_id example_client "app" false
                  (example_world one_deployed))
               eq_refl (mkRemoteJob 7 "app-SNAPSHOT")).
  - right. left. reflexivity.
  - vm_compute. intros [H|[]]. discriminate H.
Defined.

(** X4: without [BUILD_DEFINITIONNAME] in the environment
    [deploy_application] raises [KeyError] for it at once: nothing is read,
    printed or sent, the world is as before. *)
Theorem deploy_application_without_definition_name
        (version dtap : string) (w : World) :
  assoc "BUILD_DEFINITIONNAME" (w_environ w) = None ->
  deploy_application version dtap w = (Raise (KeyError "BUILD_DEFINITIONNAME"), w).
Proof.
  intros H. unfold deploy_application. unfold bind at 1. unfold environ at 1.
  now rewrite H.
Qed.

Lemma deploy_application_without_definition_name_witness :
  deploy_application "1.0.0" "PRD" feature_world
  = (Raise (KeyError "BUILD_DEFINITIONNAME"), feature_world).
Proof.
  exact (deploy_application_without_definition_name "1.0.0" "PRD" feature_world eq_refl).
Defined.

(** X5: when the builder raises (no template file, a missing field, a
    format error), [deploy_application] raises the same exception before it
    prints anything or makes any call: the world is as before. *)
Theorem deploy_application_builder_raises
        (version dtap : string) (w : World) (A : string) (e : exn) :
  assoc "BUILD_DEFINITIONNAME" (w_environ w) = Some A ->
  fst (__construct_job_config JOB_CFG (job_name A version) dtap (egg_path A version)
                              (python_file_path A version) w) = Raise e ->
  deploy_application version dtap w = (Raise e, w).
Proof.
  intros HA He. unfold deploy_application. unfold bind at 1. unfold environ at 1.
  rewrite HA. unfold bind at 1.
  fold (job_name A version) (egg_path A version) (python_file_path A version).
  pose proof (construct_job_config_pure JOB_CFG (job_name A version) dtap
                (egg_path A version) (python_file_path A version) w) as Hw.
  destruct (__construct_job_config JOB_CFG (job_name A version) dtap (egg_path A version)
              (python_file_path A version) w) as [r w1].
  cbn [fst snd] in He, Hw. now subst.
Qed.

Lemma deploy_application_builder_raises_witness :
  deploy_application "1.0.1" "PRD" no_template_world
  = (Raise (FileNotFoundError JOB_CFG), no_template_world).
Proof.
  exact (deploy_application_builder_raises "1.0.1" "PRD" no_template_world "app"
           (FileNotFoundError JOB_CFG) eq_refl eq_refl).
Defined.

(** X6: when the config is built, [deploy_application] prints one line and
    then reads the token of the tier before the host: without the token it
    raises [KeyError] for the token, whether or not the host is there; with
    the token but without the host it raises [KeyError] for the host. In both
    cases no call is made to the job service and the job list is as before. *)
Theorem deploy_application_without_credentials
        (version dtap : string) (w : World) (A : string) (cfg : json) :
  assoc "BUILD_DEFINITIONNAME" (w_environ w) = Some A ->
  __construct_job_config JOB_CFG (job_name A version) dtap (egg_path A version)
                         (python_file_path A version) w = (Ret cfg, w) ->
  (assoc ("AZURE_DATABRICKS_TOKEN_" ++ dtap) (w_environ w) = None ->
   deploy_application version dtap w =
   (Raise (KeyError ("AZURE_DATABRICKS_TOKEN_" ++ dtap)),
    with_stdout (fun out => out ++ [Print "Creating databricks client"])%list w))
  /\ (forall tk,
         assoc ("AZURE_DATABRICKS_TOKEN_" ++ dtap) (w_environ w) = Some tk ->
         assoc ("AZURE_DATABRICKS_HOST_" ++ dtap) (w_environ w) = None ->
         deploy_application version dtap w =
         (Raise (KeyError ("AZURE_DATABRICKS_HOST_" ++ dtap)),
          with_stdout (fun out => out ++ [Print "Creating databricks client"])%list w)).
Proof.
  intros HA Hc.
  assert (E : deploy_application version dtap w =
              (databricks_token <- environ ("AZURE_DATABRICKS_TOKEN_" ++ dtap) ;;
               databricks_host <- environ ("AZURE_DATABRICKS_HOST_" ++ dtap) ;;
               let client := mkApiClient databricks_host databricks_token in
               is_streaming <- lift (in_keys "schedule" cfg) ;;
               print "Removing old job" ;;
               __remove_job client A is_streaming ;;
               print "Submitting new job with configuration:" ;;
               pprint cfg ;;
               __submit_job client cfg is_streaming)
                (with_stdout (fun out => out ++ [Print "Creating databricks client"])%list w)).
  { unfold deploy_application. unfold bind at 1. unfold environ at 1. rewrite HA.
    unfold bind at 1.
    fold (job_name A version) (egg_path A version) (python_file_path A version).
    rewrite Hc. unfold bind at 1. unfold print at 1. reflexivity. }
  rewrite E. clear E. split.
  - intros Etk.
    unfold bind at 1. unfold environ at 1. cbn [w_environ with_stdout]. now rewrite Etk.
  - intros tk Etk Eh.
    unfold bind at 1. unfold environ at 1. cbn [w_environ with_stdout]. rewrite Etk.
    unfold bind at 1. unfold environ at 1. cbn [w_environ with_stdout]. now rewrite Eh.
Qed.

Lemma deploy_application_without_credentials_witness :
  assoc ("AZURE_DATABRICKS_HOST_" ++ "PRD") (w_environ no_credentials_world) = None
  /\ deploy_application "1.0.1" "PRD" no_credentials_world =
     (Raise (KeyError ("AZURE_DATABRICKS_TOKEN_" ++ "PRD")),
      with_stdout (fun out => out ++ [Print "Creating databricks client"])%list
                  no_credentials_world).
Proof.
  split; [reflexivity|].
  exact (proj1 (deploy_application_without_credentials "1.0.1" "PRD" no_credentials_world
                  "app" example_config eq_refl ltac:(vm_compute; reflexivity))
               eq_refl).
Defined.

(** X7: [main] reads the branch name before it looks at the tag: inside a
    checkout, when [BUILD_SOURCEBRANCHNAME] is not in the environment it
    raises [KeyError] for it and deploys nothing, also when the current
    commit is tagged. *)
Theorem main_without_branch_name (w : World) (repo : Repo) :
  w_repo w = Some repo ->
  assoc "BUILD_SOURCEBRANCHNAME" (w_environ w) = None ->
  main w = (Raise (KeyError "BUILD_SOURCEBRANCHNAME"), w).
Proof.
  intros Hr Hb. unfold main. rewrite Hr. unfold bind, environ. cbv beta zeta.
  now rewrite Hb.
Qed.

Lemma main_without_branch_name_witness :
  (exists t, In t (tags (mkRepo [("1.0.1", "4f2a9c")] "4f2a9c"))
             /\ snd t = head_commit (mkRepo [("1.0.1", "4f2a9c")] "4f2a9c"))
  /\ main no_branch_world = (Raise (KeyError "BUILD_SOURCEBRANCHNAME"), no_branch_world).
Proof.
  split.
  - exists ("1.0.1", "4f2a9c"). split; [left; reflexivity | reflexivity].
  - exact (main_without_branch_name no_branch_world
             (mkRepo [("1.0.1", "4f2a9c")] "4f2a9c") eq_refl eq_refl).
Defined.

(** X8: after the warehouse directory is interpolated, the builder needs a
    [spark_python_task] mapping and a [libraries] list: a template without
    [spark_python_task] raises [KeyError] for it; with it but without
    [libraries], [KeyError] for [libraries]; and with a [libraries] that is a
    mapping, [AttributeError]. A [name] field is not needed. *)
Theorem construct_required_fields
        (d nc sc : Dict.t) (wd wd' name dtap egg python_file : string) :
  Dict.get "new_cluster" d = Some (JDict nc) ->
  Dict.get "spark_conf" nc = Some (JDict sc) ->
  Dict.get "spark.sql.warehouse.dir" sc = Some (JStr wd) ->
  Format.format wd (Str.lower dtap) = Ret wd' ->
  (Dict.get "spark_python_task" d = None ->
   construct (JDict d) name dtap egg python_file = Raise (KeyError "spark_python_task"))
  /\ (forall spt,
         Dict.get "spark_python_task" d = Some (JDict spt) ->
         Dict.get "libraries" d = None ->
         construct (JDict d) name dtap egg python_file = Raise (KeyError "libraries"))
  /\ (forall spt libs,
         Dict.get "spark_python_task" d = Some (JDict spt) ->
         Dict.get "libraries" d = Some (JDict libs) ->
         construct (JDict d) name dtap egg python_file = Raise AttributeError)
  /\ (forall spt libs,
         Dict.get "spark_python_task" d = Some (JDict spt) ->
         Dict.get "libraries" d = Some (JList libs) ->
         exists cfg, construct (JDict d) name dtap egg python_file = Ret cfg).
Proof.
  intros Enc Esc Ewd Ef. unfold construct.
  cbn [getitem res_bind]. rewrite Enc. cbn [getitem res_bind]. rewrite Esc.
  cbn [getitem res_bind]. rewrite Ewd. cbn [format_method res_bind]. rewrite Ef.
  cbn [res_bind setitem getitem]. rewrite !get_set_other by discriminate.
  split; [intros ->; reflexivity|].
  split; [|split]; intros spt; [intros -> Hl | intros libs -> Hl | intros libs -> Hl];
    cbn [res_bind setitem getitem]; rewrite !get_set_other by discriminate;
    rewrite Hl; [reflexivity | reflexivity | eexists; reflexivity].
Qed.

Lemma construct_required_fields_witness :
  construct (JDict [("new_cluster",
                     JDict [("spark_conf",
                             JDict [("spark.sql.warehouse.dir", JStr "/mnt/{dtap}")])])])
            "app-1.0.0" "PRD" "app.egg" "main.py"
  = Raise (KeyError "spark_python_task").
Proof.
  exact (proj1 (construct_required_fields
                  [("new_cluster",
                    JDict [("spark_conf",
                            JDict [("spark.sql.warehouse.dir", JStr "/mnt/{dtap}")])])]
                  [("spark_conf", JDict [("spark.sql.warehouse.dir", JStr "/mnt/{dtap}")])]
                  [("spark.sql.warehouse.dir", JStr "/mnt/{dtap}")]
                  "/mnt/{dtap}" "/mnt/prd" "app-1.0.0" "PRD" "app.egg" "main.py"
                  eq_refl eq_refl eq_refl eq_refl)
               eq_refl).
Defined.

(** X9: the builder neither adds nor removes a [schedule] key: the built
    config has one exactly when the template has one, so whether a job is
    treated as streaming is decided by the template alone. *)
Theorem construct_keeps_schedule
        (t cfg : json) (name dtap egg python_file : string) :
  construct t name dtap egg python_file = Ret cfg ->
  in_keys "schedule" cfg = in_keys "schedule" t
  /\ json_path ["schedule"] cfg = json_path ["schedule"] t.
Proof.
  intros H. destruct (construct_inv _ _ _ _ _ _ H)
    as (d & nc & sc & wd & wd' & spt & libs & -> & _ & _ & _ & _ & _ & _ & ->).
  unfold built. cbn [in_keys json_path]. unfold Dict.has.
  now rewrite !get_set_other by discriminate.
Qed.

Lemma construct_keeps_schedule_witness :
  exists cfg,
    construct scheduled_template "app-1.0.0" "PRD" "app.egg" "main.py" = Ret cfg
    /\ in_keys "schedule" cfg = Ret true.
Proof.
  eexists. split; [reflexivity|].
  exact (proj1 (construct_keeps_schedule scheduled_template _
                  "app-1.0.0" "PRD" "app.egg" "main.py" eq_refl)).
Defined.

(** X10: a deployment that runs to its end prints its four outputs in order
    and talks to the job service in this order: one list-jobs call, then the
    calls of the removal (only run listing, run cancelling and job deleting),
    then one create-job call with the built config, then at most one run-now
    call on the new id. No job is deleted after the new one is created. *)
Theorem deploy_application_order
        (version dtap : string) (w w' : World) (A : string) :
  assoc "BUILD_DEFINITIONNAME" (w_environ w) = Some A ->
  deploy_application version dtap w = (Ret tt, w') ->
  exists cfg removal run,
    fst (__construct_job_config JOB_CFG (job_name A version) dtap (egg_path A version)
                                (python_file_path A version) w) = Ret cfg
    /\ w_calls w' = (w_calls w ++ ListJobs :: removal ++ CreateJob cfg :: run)%list
    /\ forallb is_removal_call removal = true
    /\ (run = [] \/ run = [RunNow (w_next_job_id w) None None None None])
    /\ w_stdout w' =
       (w_stdout w ++ [Print "Creating databricks client"; Print "Removing old job";
                       Print "Submitting new job with configuration:"; Pprint cfg])%list.
Proof.
  intros HA H.
  destruct (deploy_application_run _ _ _ _ _ HA H)
    as (d & tk & h & Hc & _ & _ & _ & Hcalls & Hout).
  exists (JDict d), (removal_calls A (Dict.has "schedule" d) w),
         (if Dict.has "schedule" d
          then [RunNow (w_next_job_id w) None None None None] else []).
  rewrite Hc. split; [reflexivity|]. split; [exact Hcalls|].
  split; [apply removal_calls_removal|]. split; [|exact Hout].
  destruct (Dict.has "schedule" d); auto.
Qed.

Lemma deploy_application_order_witness :
  exists cfg removal run,
    fst (__construct_job_config JOB_CFG (job_name "app" "1.0.1") "PRD"
           (egg_path "app" "1.0.1") (python_file_path "app" "1.0.1")
           (example_world one_deployed)) = Ret cfg
    /\ w_calls (snd (deploy_application "1.0.1" "PRD" (example_world one_deployed))) =
       (w_calls (example_world one_deployed)
          ++ ListJobs :: removal ++ CreateJob cfg :: run)%list
    /\ forallb is_removal_call removal = true
    /\ (run = [] \/ run = [RunNow (w_next_job_id (example_world one_deployed))
                                  None None None None])
    /\ w_stdout (snd (deploy_application "1.0.1" "PRD" (example_world one_deployed))) =
       (w_stdout (example_world one_deployed)
          ++ [Print "Creating databricks client"; Print "Removing old job";
              Print "Submitting new job with configuration:"; Pprint cfg])%list.
Proof.
  exact (deploy_application_order "1.0.1" "PRD" (example_world one_deployed)
           (snd (deploy_application "1.0.1" "PRD" (example_world one_deployed))) "app"
           eq_refl ltac:(vm_compute; reflexivity)).
Defined.

(** X11: the matcher finds the job a deployment created only for a
    well-formed version: for an application name whose only special
    characters are dots, the job named by the name, a dash and [v] is
    selected exactly when [v] is [SNAPSHOT] or [\d+\.\d+\.\d+], possibly
    followed by one line feed. A job deployed from a tag such as [v1.0.0] is
    not found, and so not removed, by later deployments. *)
Theorem application_job_id_own_job (A v : string) (id : Z) :
  dotted A = true ->
  (__application_job_id A [mkJobConfig (job_name A v) id] = Ret (Some id)
   <-> version v \/ exists V, version V /\ v = V ++ NEWLINE)
  /\ (__application_job_id A [mkJobConfig (job_name A v) id] = Ret None
      <-> ~ (version v \/ exists V, version V /\ v = V ++ NEWLINE)).
Proof.
  intros HA.
  assert (Hn : names_application A (job_name A v)
               <-> version v \/ exists V, version V /\ v = V ++ NEWLINE).
  { unfold names_application, job_name. split.
    - intros (V & nl & HV & Hnl & E).
      apply append_inv_head in E. cbn [String.append] in E. injection E as ->.
      destruct Hnl as [-> | ->]; [left; now rewrite append_nil_r | right; eauto].
    - intros [HV | (V & HV & ->)].
      + exists v, "". rewrite append_nil_r. auto.
      + exists V, NEWLINE. auto. }
  unfold __application_job_id. rewrite (compile_job_pattern A HA).
  cbn [find name job_id option_map].
  destruct (has_match _ A (job_name A v)) eqn:E; cbn [option_map job_id].
  - apply has_match_iff in E. apply Hn in E. split; split; intros H;
      try reflexivity; try assumption; try discriminate H. contradiction.
  - assert (~ names_application A (job_name A v))
      by (intros N; apply has_match_iff in N; congruence).
    rewrite Hn in H. split; split; intros H'; try reflexivity; try assumption;
      try discriminate H'. contradiction.
Qed.

Lemma application_job_id_own_job_witness :
  __application_job_id "app" [mkJobConfig (job_name "app" "1.0.0") 9] = Ret (Some 9%Z).
Proof.
  exact (proj2 (proj1 (application_job_id_own_job "app" "1.0.0" 9 eq_refl))
               (or_introl version_1_0_0)).
Defined.


Import Re ReSem StrFacts ReFacts CompileFacts MatchFacts MatcherFacts.
Import DictFacts BuilderFacts FormatFacts PathFacts BuilderTheorems WorldFacts DeployFacts.
Import CountFacts RunFacts.

Module FieldFacts.
Import Format.

Lemma string_of_chars s : string_of_list_ascii (Str.chars s) = s.
Proof. induction s as [|c s IH]; simpl; congruence. Qed.

Lemma run_field name : forall acc rest v,
  Str.forallb field_char name = true ->
  run (Field acc) (name ++ String "}" rest) v =
  res_bind (lookup (rev acc ++ Str.chars name)%list v)
           (fun x => res_bind (run Text rest v) (fun r => Ret (x ++ r))).
Proof.
  induction name as [|c name IH]; intros acc rest v H.
  - cbn [String.append run is_close]. change (Ascii.eqb "}" "}") with true. cbv iota.
    cbn [Str.chars]. now rewrite app_nil_r.
  - cbn [Str.forallb] in H. apply andb_prop in H as [Hc H].
    unfold field_char in Hc. apply negb_true_iff in Hc.
    apply orb_false_elim in Hc as [Hc Hcomp]. apply orb_false_elim in Hc as [Ho Hcl].
    cbn [String.append run]. rewrite Hcl, Hcomp. rewrite IH by assumption.
    cbn [rev Str.chars]. now rewrite <- app_assoc.
Qed.

Lemma lookup_simple name v :
  simple_field name = true -> name <> "dtap" ->
  lookup (Str.chars name) v = Raise (KeyError name).
Proof.
  intros H Hn. unfold lookup. rewrite string_of_chars.
  apply String.eqb_neq in Hn. rewrite Hn.
  destruct name as [|c name]; [discriminate H|].
  cbn [simple_field] in H. apply andb_prop in H as [Hd _].
  apply negb_true_iff in Hd. cbn [Str.chars forallb]. now rewrite Hd.
Qed.

Lemma run_text_other_field p name rest v :
  brace_free p = true -> simple_field name = true -> name <> "dtap" ->
  run Text (p ++ String "{" (name ++ String "}" rest)) v = Raise (KeyError name).
Proof.
  intros Hp Hs Hn. unfold brace_free in Hp.
  induction p as [|c p IH].
  - cbn [String.append run is_open]. change (Ascii.eqb "{" "{") with true. cbv iota.
    destruct name as [|c name]; [discriminate Hs|].
    pose proof Hs as Hs'. cbn [simple_field Str.forallb] in Hs'.
    apply andb_prop in Hs' as [_ Hf]. apply andb_prop in Hf as [Hc Hf].
    unfold field_char in Hc. apply negb_true_iff in Hc.
    apply orb_false_elim in Hc as [Hc Hcomp]. apply orb_false_elim in Hc as [Ho Hcl].
    cbn [String.append run]. rewrite Ho, Hcl, Hcomp.
    rewrite run_field by assumption.
    change (rev [c] ++ Str.chars name)%list with (Str.chars (String c name)).
    now rewrite (lookup_simple _ v Hs Hn).
  - cbn [Str.forallb] in Hp. apply andb_prop in Hp as [Hc Hp].
    apply negb_true_iff, orb_false_elim in Hc as [Ho Hcl].
    cbn [String.append run]. rewrite Ho, Hcl, (IH Hp). reflexivity.
Qed.

End FieldFacts.
Import FieldFacts.

(** X12: for an application name without special characters and a
    well-formed version, when at most one listed job matched the job pattern
    and no matching job had id 0, a deployment that runs to its end leaves
    exactly one matching job: the new one, under the new id and the name made
    of the application name, a dash and the version. *)
Theorem deploy_application_replaces
        (v dtap : string) (w w' : World) (A : string) :
  plain A = true ->
  version v ->
  assoc "BUILD_DEFINITIONNAME" (w_environ w) = Some A ->
  count_matching A (w_jobs w) <= 1 ->
  (forall j, In j (w_jobs w) -> name_matches A (rj_settings_name j) = true ->
             rj_job_id j <> 0%Z) ->
  deploy_application v dtap w = (Ret tt, w') ->
  filter (fun j => name_matches A (rj_settings_name j)) (w_jobs w')
  = [mkRemoteJob (w_next_job_id w) (job_name A v)].
Proof.
  intros HA HV HE Hc Hz H.
  destruct (deploy_application_run _ _ _ _ _ HE H)
    as (d & tk & h & Hb & _ & _ & -> & _ & _).
  rewrite construct_job_config_eq in Hb.
  destruct (Dict.get JOB_CFG (w_files w)) as [t|]; [|discriminate Hb].
  injection Hb as Hb.
  destruct (construct_inv _ _ _ _ _ _ Hb)
    as (d0 & nc & sc & wd & wd' & spt & libs & _ & _ & _ & _ & _ & _ & _ & Hd).
  rewrite Hd, settings_name_built, filter_app.
  pose proof (jobs_after_remove_none A _ HA Hc Hz) as Hnone.
  unfold count_matching in Hnone. apply length_zero_iff_nil in Hnone. rewrite Hnone.
  cbn [filter app rj_settings_name].
  assert (Hm : name_matches A (job_name A v) = true).
  { apply (name_matches_iff A _ HA). exists v, "". unfold job_name.
    rewrite append_nil_r. auto. }
  now rewrite Hm.
Qed.

Lemma deploy_application_replaces_witness :
  filter (fun j => name_matches "app" (rj_settings_name j))
         (w_jobs (snd (deploy_application "1.0.0" "PRD" (example_world one_deployed))))
  = [mkRemoteJob 100 "app-1.0.0"].
Proof.
  apply (deploy_application_replaces "1.0.0" "PRD" (example_world one_deployed)
           (snd (deploy_application "1.0.0" "PRD" (example_world one_deployed))) "app").
  - reflexivity.
  - exact version_1_0_0.
  - reflexivity.
  - vm_compute. lia.
  - intros j [<-|[<-|[]]]; vm_compute; discriminate.
  - vm_compute. reflexivity.
Defined.

(** X13: a warehouse directory that names a placeholder other than [dtap]
    (after text without braces, a simple field name in braces) makes the
    builder raise [KeyError] for that name, whatever else the template
    holds. *)
Theorem construct_other_placeholder
        (d nc sc : Dict.t) (prefix field rest name dtap egg python_file : string) :
  Dict.get "new_cluster" d = Some (JDict nc) ->
  Dict.get "spark_conf" nc = Some (JDict sc) ->
  Dict.get "spark.sql.warehouse.dir" sc
  = Some (JStr (prefix ++ "{" ++ field ++ "}" ++ rest)) ->
  Format.brace_free prefix = true ->
  simple_field field = true ->
  field <> "dtap" ->
  construct (JDict d) name dtap egg python_file = Raise (KeyError field).
Proof.
  intros Enc Esc Ewd Hp Hf Hn. unfold construct.
  cbn [getitem res_bind]. rewrite Enc. cbn [getitem res_bind]. rewrite Esc.
  cbn [getitem res_bind]. rewrite Ewd. cbn [format_method res_bind].
  unfold Format.format.
  change (prefix ++ "{" ++ field ++ "}" ++ rest)
    with (prefix ++ String "{" (field ++ String "}" rest)).
  now rewrite (run_text_other_field prefix field rest _ Hp Hf Hn).
Qed.

Lemma construct_other_placeholder_witness :
  construct env_template "app-1.0.0" "PRD" "app.egg" "main.py" = Raise (KeyError "env").
Proof.
  exact (construct_other_placeholder
           [("new_cluster",
             JDict [("spark_conf",
                     JDict [("spark.sql.warehouse.dir", JStr "/mnt/{env}/warehouse")])]);
            ("spark_python_task", JDict []);
            ("libraries", JList [])]
           [("spark_conf",
             JDict [("spark.sql.warehouse.dir", JStr "/mnt/{env}/warehouse")])]
           [("spark.sql.warehouse.dir", JStr "/mnt/{env}/warehouse")]
           "/mnt/" "env" "/warehouse" "app-1.0.0" "PRD" "app.egg" "main.py"
           eq_refl eq_refl eq_refl eq_refl eq_refl ltac:(discriminate)).
Defined.

